(** * Transport selection and device enumeration of [streamdeck.device_manager]

    A shallow embedding of [src/streamdeck/device_manager.py]: the static
    method [DeviceManager._get_transport], the constructor
    [DeviceManager.__init__] and the method [DeviceManager.enumerate].

    The transports ([Dummy], [LibUSBHIDAPI]) and the device classes live in
    other modules of the package.  What they do when called is a parameter
    of the development; every call the manager makes into them is recorded
    in a trace, so that "which backend was tried" and "was the bus queried
    again" are statements about the code. *)

From Stdlib Require Import ZArith String List Ascii Bool Arith Lia.
Import ListNotations.
Open Scope string_scope.
Open Scope list_scope.

(** ** Python values used by the module *)

(** [dict]: a Python dictionary with [str] keys.  Iteration follows insertion
    order; assigning to a key that is present replaces the value in place. *)
Definition dict (V : Type) : Type := list (string * V).

Fixpoint dict_get {V : Type} (d : dict V) (k : string) : option V :=
  match d with
  | [] => None
  | (k', v) :: rest => if String.eqb k' k then Some v else dict_get rest k
  end.

Fixpoint dict_set {V : Type} (d : dict V) (k : string) (v : V) : dict V :=
  match d with
  | [] => [(k, v)]
  | (k', v') :: rest =>
      if String.eqb k' k then (k', v) :: rest else (k', v') :: dict_set rest k v
  end.

(** A dictionary display [{k1: v1, k2: v2, ...}]: the entries are stored
    left to right. *)
Definition dict_literal {V : Type} (entries : list (string * V)) : dict V :=
  fold_left (fun d kv => dict_set d (fst kv) (snd kv)) entries [].

Definition dict_items {V : Type} (d : dict V) : list (string * V) := d.

Definition dict_keys {V : Type} (d : dict V) : list string := map fst d.

(** Exception objects.  [ProbeError] is the class defined at line 18; its
    [args] tuple holds what the [raise] statements pass.  [Fault] stands for
    anything raised inside a transport: [derives_Exception] tells whether an
    [except Exception] clause catches it ([KeyboardInterrupt], [SystemExit]
    and [GeneratorExit] derive from [BaseException] only). *)
Inductive pyexc : Type :=
| ProbeError (args : list pyval)
| Fault (derives_Exception : bool) (what : string)
with pyval : Type :=
| VStr (s : string)
| VExc (e : pyexc)
| VDict (d : list (string * pyexc)).

Definition isinstance_Exception (e : pyexc) : bool :=
  match e with
  | ProbeError _ => true
  | Fault b _ => b
  end.

(** [template.format(arg)] for a template with replacement fields [{}] and a
    [str] argument: the first field is replaced by the argument. *)
Fixpoint format (template arg : string) : string :=
  match template with
  | EmptyString => EmptyString
  | String "{" (String "}" rest) => arg ++ rest
  | String c rest => String c (format rest arg)
  end.

Definition dquote : string := String "034"%char EmptyString.

(** Truth value of the argument [transport]: [None] and the empty string are
    false, every other string is true. *)
Definition truthy (transport : option string) : bool :=
  match transport with
  | None => false
  | Some s => negb (String.eqb s "")
  end.

(** ** Results and the state they are computed in *)

Inductive outcome (A : Type) : Type :=
| Return (a : A)
| Raise (e : pyexc).
Arguments Return {A} a.
Arguments Raise {A} e.

(** The four device classes imported at lines 9 to 12. *)
Inductive class_type : Type :=
| StreamDeckOriginal
| StreamDeckOriginalV2
| StreamDeckMini
| StreamDeckXL.

(** Calls that leave the module, and the one attribute assignment. *)
Inductive event : Type :=
| EvProbe (name : string)
| EvConstruct (name : string)
| EvEnumerate (vid pid : Z)
| EvNew (c : class_type) (id : nat)
| EvSetattr (attr : string).

Definition M (S A : Type) : Type := S -> outcome A * S.

Definition ret {S A : Type} (a : A) : M S A := fun s => (Return a, s).

Definition raise {S A : Type} (e : pyexc) : M S A := fun s => (Raise e, s).

Definition bind {S A B : Type} (m : M S A) (k : A -> M S B) : M S B :=
  fun s =>
    match m s with
    | (Return a, s') => k a s'
    | (Raise e, s') => (Raise e, s')
    end.

(** [try: body  except Exception as e: handler e]. *)
Definition try_except_Exception {S A : Type}
    (body : M S A) (handler : pyexc -> M S A) : M S A :=
  fun s =>
    match body s with
    | (Return a, s') => (Return a, s')
    | (Raise e, s') =>
        if isinstance_Exception e then handler e s' else (Raise e, s')
    end.

Declare Scope py_scope.
Delimit Scope py_scope with py.
Notation "x <- m ;; k" := (bind m (fun x => k))
  (at level 100, m at next level, right associativity) : py_scope.
Notation "m ;; k" := (bind m (fun _ => k))
  (at level 100, right associativity) : py_scope.
Open Scope py_scope.

(** ** The module, over its collaborators *)

Section DeviceManager.

(** State of everything outside the module: the USB bus, the native HID
    library and whatever the transport objects keep internally. *)
Variable Bus : Type.
(** Instances of a transport class. *)
Variable Transport : Type.
(** What [transport.enumerate] yields for each attached device. *)
Variable Descriptor : Type.

(** A transport class, as the module uses one: the static method [probe()]
    and the call of the class. *)
Record TransportClass : Type := {
  probe : Bus -> outcome unit * Bus;
  construct : Bus -> outcome Transport * Bus
}.

(** The method [enumerate(vid=..., pid=...)] of a transport instance. *)
Variable transport_enumerate :
  Transport -> Z -> Z -> Bus -> outcome (list Descriptor) * Bus.

(** The classes bound to the names [Dummy] and [LibUSBHIDAPI] at lines 14
    and 15. *)
Variable Dummy : TransportClass.
Variable LibUSBHIDAPI : TransportClass.

(** Modelled from the spec: the device classes are not part of this module.
    Calling one with a descriptor "constructs a Device Model instance of the
    signature's designated type, passing the descriptor as its sole
    argument"; instances "are created fresh on every enumerate() call".  An
    instance is its identity, its class and the descriptor it owns. *)
Record StreamDeck : Type := {
  sd_id : nat;
  sd_class : class_type;
  sd_device : Descriptor
}.

Record World : Type := {
  bus : Bus;
  next_id : nat;
  trace : list event
}.

Definition log (ev : event) (w : World) : World :=
  {| bus := bus w; next_id := next_id w; trace := trace w ++ [ev] |}.

Definition with_bus (b : Bus) (w : World) : World :=
  {| bus := b; next_id := next_id w; trace := trace w |}.

(** [transport_class.probe()], the class being the one found under [name]. *)
Definition call_probe (name : string) (transport_class : TransportClass)
  : M World unit :=
  fun w =>
    let (r, b) := probe transport_class (bus w) in
    (r, with_bus b (log (EvProbe name) w)).

(** [transport_class()]. *)
Definition call_construct (name : string) (transport_class : TransportClass)
  : M World Transport :=
  fun w =>
    let (r, b) := construct transport_class (bus w) in
    (r, with_bus b (log (EvConstruct name) w)).

(** [transport.enumerate(vid=vid, pid=pid)]. *)
Definition call_enumerate (t : Transport) (vid pid : Z)
  : M World (list Descriptor) :=
  fun w =>
    let (r, b) := transport_enumerate t vid pid (bus w) in
    (r, with_bus b (log (EvEnumerate vid pid) w)).

(** [class_type(d)]: a new object. *)
Definition call_class (c : class_type) (d : Descriptor) : M World StreamDeck :=
  fun w =>
    (Return {| sd_id := next_id w; sd_class := c; sd_device := d |},
     {| bus := bus w;
        next_id := S (next_id w);
        trace := trace w ++ [EvNew c (next_id w)] |}).

(** *** [_get_transport] (lines 40 to 82) *)

Definition unknown_backend_message (transport : string) : string :=
  format ("Unknown HID transport backend " ++ dquote ++ "{}" ++ dquote ++ ".")
         transport.

Definition probe_failed_message (transport : string) : string :=
  format ("Probe failed on HID backend " ++ dquote ++ "{}" ++ dquote ++ ".")
         transport.

Definition no_backend_message : string :=
  "Probe failed to find any functional HID backend.".

(** The three [raise] statements, lines 62, 68 and 82. *)
Definition UnknownBackend (transport : string) : pyexc :=
  ProbeError [VStr (unknown_backend_message transport)].

Definition ProbeFailed (transport : string) (transport_error : pyexc) : pyexc :=
  ProbeError [VStr (probe_failed_message transport); VExc transport_error].

Definition NoFunctionalBackend (probe_errors : dict pyexc) : pyexc :=
  ProbeError [VStr no_backend_message; VDict probe_errors].

(** Lines 65 and 66, the body of both [try] statements. *)
Definition probe_and_construct (name : string) (transport_class : TransportClass)
  : M World Transport :=
  call_probe name transport_class ;;
  call_construct name transport_class.

(** The [for] loop of lines 72 to 80.  It is left either by the [return] of
    line 78 ([inl]) or at the end of the items ([inr], with the errors
    collected). *)
Fixpoint for_transports (items : list (string * TransportClass))
    (probe_errors : dict pyexc) : M World (Transport + dict pyexc) :=
  match items with
  | [] => ret (inr probe_errors)
  | (transport_name, transport_class) :: rest =>
      if String.eqb transport_name "dummy" then
        for_transports rest probe_errors
      else
        step <- try_except_Exception
                  (t <- probe_and_construct transport_name transport_class ;;
                   ret (inl t))
                  (fun transport_error =>
                     ret (inr (dict_set probe_errors transport_name
                                        transport_error))) ;;
        match step with
        | inl t => ret (inl t)
        | inr probe_errors' => for_transports rest probe_errors'
        end
  end.

(** Lines 59 to 68: the backend is named. *)
Definition named_backend (transports : dict TransportClass) (transport : string)
  : M World Transport :=
  match dict_get transports transport with
  | None => raise (UnknownBackend transport)
  | Some transport_class =>
      try_except_Exception
        (probe_and_construct transport transport_class)
        (fun transport_error => raise (ProbeFailed transport transport_error))
  end.

(** Lines 70 to 82: every backend but the dummy is tried in turn. *)
Definition autoprobe (transports : dict TransportClass) : M World Transport :=
  left <- for_transports (dict_items transports) [] ;;
  match left with
  | inl t => ret t
  | inr probe_errors => raise (NoFunctionalBackend probe_errors)
  end.

(** The body of [_get_transport] for a registry [transports]; line 58
    chooses the branch. *)
Definition get_transport_in (transports : dict TransportClass)
    (transport : option string) : M World Transport :=
  match transport with
  | Some name =>
      if truthy transport then named_backend transports name
      else autoprobe transports
  | None => autoprobe transports
  end.

(** The registry of lines 53 to 56. *)
Definition transports : dict TransportClass :=
  dict_literal [("dummy", Dummy); ("libusb", LibUSBHIDAPI)].

Definition _get_transport (transport : option string) : M World Transport :=
  get_transport_in transports transport.

(** *** The manager object (lines 84 to 113) *)

(** The attributes of a [DeviceManager] instance; [None] while the attribute
    has not been assigned. *)
Record DeviceManager : Type := {
  transport : option Transport
}.

Definition AttributeError : pyexc :=
  Fault true "AttributeError: 'DeviceManager' object has no attribute 'transport'".

(** A method runs on its receiver and the world. *)
Definition Method (A : Type) : Type := M (DeviceManager * World) A.

Definition lift {A : Type} (m : M World A) : Method A :=
  fun s =>
    let (r, w) := m (snd s) in (r, (fst s, w)).

(** Reading [self.transport]. *)
Definition getattr_transport : Method Transport :=
  fun s =>
    match transport (fst s) with
    | Some t => (Return t, s)
    | None => (Raise AttributeError, s)
    end.

(** The assignment [self.transport = t]. *)
Definition setattr_transport (t : Transport) : Method unit :=
  fun s =>
    (Return tt, ({| transport := Some t |}, log (EvSetattr "transport") (snd s))).

(** [__init__], line 90. *)
Definition __init__ (name : option string) : Method unit :=
  t <- lift (_get_transport name) ;;
  setattr_transport t.

(** The call [DeviceManager(name)]: a new instance without attributes is
    handed to [__init__]; the caller gets it only if [__init__] returns. *)
Definition new_DeviceManager (name : option string) : M World DeviceManager :=
  fun w =>
    match __init__ name ({| transport := None |}, w) with
    | (Return _, s) => (Return (fst s), snd s)
    | (Raise e, s) => (Raise e, snd s)
    end.

Definition USB_VID_ELGATO : Z := 0x0fd9.
Definition USB_PID_STREAMDECK_ORIGINAL : Z := 0x0060.
Definition USB_PID_STREAMDECK_ORIGINAL_V2 : Z := 0x006d.
Definition USB_PID_STREAMDECK_MINI : Z := 0x0063.
Definition USB_PID_STREAMDECK_XL : Z := 0x006c.

(** The table of lines 100 to 105. *)
Definition products : list (Z * Z * class_type) :=
  [ (USB_VID_ELGATO, USB_PID_STREAMDECK_ORIGINAL, StreamDeckOriginal);
    (USB_VID_ELGATO, USB_PID_STREAMDECK_ORIGINAL_V2, StreamDeckOriginalV2);
    (USB_VID_ELGATO, USB_PID_STREAMDECK_MINI, StreamDeckMini);
    (USB_VID_ELGATO, USB_PID_STREAMDECK_XL, StreamDeckXL) ].

(** [[class_type(d) for d in found_devices]]. *)
Fixpoint list_comprehension (c : class_type) (found_devices : list Descriptor)
  : M World (list StreamDeck) :=
  match found_devices with
  | [] => ret []
  | d :: rest =>
      x <- call_class c d ;;
      xs <- list_comprehension c rest ;;
      ret (x :: xs)
  end.

(** The [for] loop of lines 109 to 111; [streamdecks] is the list being
    extended. *)
Fixpoint for_products (items : list (Z * Z * class_type))
    (streamdecks : list StreamDeck) : Method (list StreamDeck) :=
  match items with
  | [] => ret streamdecks
  | (vid, pid, c) :: rest =>
      t <- getattr_transport ;;
      found_devices <- lift (call_enumerate t vid pid) ;;
      wrapped <- lift (list_comprehension c found_devices) ;;
      for_products rest (streamdecks ++ wrapped)
  end.

(** [enumerate], lines 92 to 113. *)
Definition enumerate : Method (list StreamDeck) :=
  streamdecks <- for_products products [] ;;
  ret streamdecks.

(** *** What the collaborators do, as the claims speak of it *)

(** The backend [c] fails in bus state [b]: its probe raises, or its probe
    succeeds and its construction raises. *)
Definition backend_fails (c : TransportClass) (b : Bus) (e : pyexc) (b' : Bus)
  : Prop :=
  probe c b = (Raise e, b') \/
  exists b1, probe c b = (Return tt, b1) /\ construct c b1 = (Raise e, b').

(** The probe and the construction of [c] both succeed. *)
Definition backend_succeeds (c : TransportClass) (b : Bus) (t : Transport)
    (b' : Bus) : Prop :=
  exists b1, probe c b = (Return tt, b1) /\ construct c b1 = (Return t, b').

(** Every entry of [items] other than the dummy fails with an [Exception],
    one after the other from bus state [b]; [errors] pairs each with its
    cause. *)
Inductive all_fail
  : list (string * TransportClass) -> Bus -> dict pyexc -> Bus -> Prop :=
| all_fail_nil : forall b, all_fail [] b [] b
| all_fail_dummy : forall c rest b errors b',
    all_fail rest b errors b' ->
    all_fail (("dummy", c) :: rest) b errors b'
| all_fail_cons : forall name c rest b e b1 errors b',
    name <> "dummy" ->
    backend_fails c b e b1 ->
    isinstance_Exception e = true ->
    all_fail rest b1 errors b' ->
    all_fail ((name, c) :: rest) b ((name, e) :: errors) b'.

Definition non_dummy (names : list string) : list string :=
  filter (fun name => negb (String.eqb name "dummy")) names.

(** The transport [t] answers the queries for [items], asked in order from
    bus state [b], with the descriptor sequences [founds]. *)
Inductive answers (t : Transport)
  : list (Z * Z * class_type) -> Bus -> list (list Descriptor) -> Bus -> Prop :=
| answers_nil : forall b, answers t [] b [] b
| answers_cons : forall vid pid c rest b found b1 founds b',
    transport_enumerate t vid pid b = (Return found, b1) ->
    answers t rest b1 founds b' ->
    answers t ((vid, pid, c) :: rest) b (found :: founds) b'.

(** Class and descriptor of a device object: what two objects of different
    identity can have in common. *)
Definition model (sd : StreamDeck) : class_type * Descriptor :=
  (sd_class sd, sd_device sd).

(** The models for [founds], signature by signature. *)
Fixpoint models_in_table_order (items : list (Z * Z * class_type))
    (founds : list (list Descriptor)) : list (class_type * Descriptor) :=
  match items, founds with
  | (_, _, c) :: items', found :: founds' =>
      map (pair c) found ++ models_in_table_order items' founds'
  | _, _ => []
  end.

(** Reading a trace. *)
Definition probed (tr : list event) : list string :=
  flat_map (fun ev => match ev with EvProbe name => [name] | _ => [] end) tr.

Definition attempted (tr : list event) : list string :=
  flat_map (fun ev => match ev with
                      | EvProbe name | EvConstruct name => [name]
                      | _ => []
                      end) tr.

Definition queried (tr : list event) : list (Z * Z) :=
  flat_map (fun ev => match ev with
                      | EvEnumerate vid pid => [(vid, pid)]
                      | _ => []
                      end) tr.

Definition assignments (tr : list event) : list string :=
  flat_map (fun ev => match ev with EvSetattr a => [a] | _ => [] end) tr.

Definition signature (p : Z * Z * class_type) : Z * Z := fst p.

End DeviceManager.

Arguments log {Bus} ev w.
Arguments with_bus {Bus} b w.
Arguments probe {Bus Transport} _ _.
Arguments construct {Bus Transport} _ _.
Arguments sd_id {Descriptor} _.
Arguments sd_class {Descriptor} _.
Arguments sd_device {Descriptor} _.
Arguments bus {Bus} _.
Arguments next_id {Bus} _.
Arguments trace {Bus} _.
Arguments transport {Transport} _.
Arguments call_probe {Bus Transport} name transport_class _.
Arguments call_construct {Bus Transport} name transport_class _.
Arguments call_enumerate {Bus Transport Descriptor} transport_enumerate t vid pid _.
Arguments call_class {Bus Descriptor} c d _.
Arguments probe_and_construct {Bus Transport} name transport_class _.
Arguments for_transports {Bus Transport} items probe_errors _.
Arguments named_backend {Bus Transport} transports transport _.
Arguments autoprobe {Bus Transport} transports _.
Arguments get_transport_in {Bus Transport} transports transport _.
Arguments transports {Bus Transport} Dummy LibUSBHIDAPI.
Arguments _get_transport {Bus Transport} Dummy LibUSBHIDAPI transport _.
Arguments lift {Bus Transport A} m _.
Arguments getattr_transport {Bus Transport} _.
Arguments setattr_transport {Bus Transport} t _.
Arguments __init__ {Bus Transport} Dummy LibUSBHIDAPI name _.
Arguments new_DeviceManager {Bus Transport} Dummy LibUSBHIDAPI name _.
Arguments list_comprehension {Bus Descriptor} c found_devices _.
Arguments for_products {Bus Transport Descriptor} transport_enumerate items streamdecks _.
Arguments enumerate {Bus Transport Descriptor} transport_enumerate _.
Arguments backend_fails {Bus Transport} c b e b'.
Arguments backend_succeeds {Bus Transport} c b t b'.
Arguments all_fail {Bus Transport} _ _ _ _.
Arguments answers {Bus Transport Descriptor} transport_enumerate t _ _ _ _.
Arguments model {Descriptor} sd.
Arguments models_in_table_order {Descriptor} items founds.

(** ** Concrete collaborators

    A bus that counts the calls made into the native side, transports named
    by a string, descriptors that are device paths. *)
Module Demo.

Definition Bus : Type := nat.
Definition Transport : Type := string.
Definition Descriptor : Type := string.

Definition OSError : pyexc := Fault true "OSError: hidapi library not found".
Definition PermissionError : pyexc := Fault true "PermissionError: cannot open HID context".
Definition IOError : pyexc := Fault true "IOError: bus disconnected".
Definition KeyboardInterrupt : pyexc := Fault false "KeyboardInterrupt".

(** A backend that works, one whose probe fails and one whose construction
    fails. *)
Definition working (instance : Transport) : TransportClass Bus Transport :=
  {| probe := fun b => (Return tt, S b);
     construct := fun b => (Return instance, S b) |}.

Definition unloadable : TransportClass Bus Transport :=
  {| probe := fun b => (Raise OSError, S b);
     construct := fun b => (Return "unloadable", S b) |}.

Definition unopenable : TransportClass Bus Transport :=
  {| probe := fun b => (Return tt, S b);
     construct := fun b => (Raise PermissionError, S b) |}.

Definition interrupted : TransportClass Bus Transport :=
  {| probe := fun b => (Raise KeyboardInterrupt, S b);
     construct := fun b => (Return "interrupted", S b) |}.

(** One original deck and two second-revision decks are attached; the
    transport named flaky loses the bus when asked for the second
    signature. *)
Definition attached (t : Transport) (vid pid : Z) (b : Bus)
  : outcome (list Descriptor) * Bus :=
  if (pid =? USB_PID_STREAMDECK_ORIGINAL)%Z then (Return ["usb:1"], S b)
  else if (pid =? USB_PID_STREAMDECK_ORIGINAL_V2)%Z then
    if String.eqb t "flaky" then (Raise IOError, S b)
    else (Return ["usb:2"; "usb:3"], S b)
  else (Return [], S b).

(** Nothing is attached. *)
Definition unplugged (t : Transport) (vid pid : Z) (b : Bus)
  : outcome (list Descriptor) * Bus :=
  (Return [], S b).

Definition start : World Bus :=
  {| bus := 0; next_id := 0; trace := [] |}.

(** A registry with two working backends behind two failing ones. *)
Definition four_backends : dict (TransportClass Bus Transport) :=
  dict_literal [ ("dummy", working "dummy");
                 ("hidraw", unloadable);
                 ("winusb", unopenable);
                 ("libusb", working "libusb");
                 ("hidapi", working "hidapi") ].

(** A registry in which nothing but the dummy works. *)
Definition none_working : dict (TransportClass Bus Transport) :=
  dict_literal [ ("dummy", working "dummy");
                 ("hidraw", unloadable);
                 ("winusb", unopenable) ].

(** Managers holding a transport, and the world after
    [DeviceManager()] with a working [libusb]. *)
Definition libusb_manager : DeviceManager Transport :=
  {| transport := Some "libusb" |}.

Definition flaky_manager : DeviceManager Transport :=
  {| transport := Some "flaky" |}.

Definition constructed : World Bus :=
  {| bus := 2;
     next_id := 0;
     trace := [EvProbe "libusb"; EvConstruct "libusb"; EvSetattr "transport"] |}.

End Demo.

(** ** Further notions and scenarios *)

(** With [ids_of] giving the vendor and product id of the device behind a
    descriptor: every descriptor reported for a signature belongs to a
    device of that signature. *)
Definition matching {Descriptor : Type} (ids_of : Descriptor -> Z * Z)
    (items : list (Z * Z * class_type)) (founds : list (list Descriptor))
  : Prop :=
  Forall2 (fun p found => Forall (fun d => ids_of d = signature p) found)
          items founds.

(** Every entry of [items] other than the dummy fails, one after the other
    from bus state [b], with whatever object it raises: [all_fail] without
    the condition that the object derives from [Exception]. *)
Inductive all_raise {Bus Transport : Type}
  : list (string * TransportClass Bus Transport) ->
    Bus -> dict pyexc -> Bus -> Prop :=
| all_raise_nil : forall b, all_raise [] b [] b
| all_raise_dummy : forall c rest b errors b',
    all_raise rest b errors b' ->
    all_raise (("dummy", c) :: rest) b errors b'
| all_raise_cons : forall name c rest b e b1 errors b',
    name <> "dummy" ->
    backend_fails c b e b1 ->
    all_raise rest b1 errors b' ->
    all_raise ((name, c) :: rest) b ((name, e) :: errors) b'.

Module Scenario.

Import Demo.

(** A registry whose scan is interrupted at its second candidate, with a
    working backend behind it. *)
Definition interrupted_scan : dict (TransportClass Bus Transport) :=
  dict_literal [ ("dummy", working "dummy");
                 ("hidraw", unloadable);
                 ("winusb", interrupted);
                 ("libusb", working "libusb") ].

(** Vendor and product id of the device behind a descriptor that
    [attached] reports. *)
Definition ids_of (d : Descriptor) : Z * Z :=
  if String.eqb d "usb:1"
  then (USB_VID_ELGATO, USB_PID_STREAMDECK_ORIGINAL)
  else (USB_VID_ELGATO, USB_PID_STREAMDECK_ORIGINAL_V2).

(** A transport that reports the same descriptor twice for the mini. *)
Definition doubled (t : Transport) (vid pid : Z) (b : Bus)
  : outcome (list Descriptor) * Bus :=
  if (pid =? USB_PID_STREAMDECK_MINI)%Z then (Return ["usb:7"; "usb:7"], S b)
  else (Return [], S b).

(** The worlds reached from [start]: by the scan of [four_backends], by
    the scan of [none_working], and by [DeviceManager()] when [libusb]
    cannot be loaded. *)
Definition scan_done : World Bus :=
  {| bus := 5;
     next_id := 0;
     trace := [EvProbe "hidraw"; EvProbe "winusb"; EvConstruct "winusb";
               EvProbe "libusb"; EvConstruct "libusb"] |}.

Definition scan_failed : World Bus :=
  {| bus := 3;
     next_id := 0;
     trace := [EvProbe "hidraw"; EvProbe "winusb"; EvConstruct "winusb"] |}.

Definition construction_failed : World Bus :=
  {| bus := 1; next_id := 0; trace := [EvProbe "libusb"] |}.

End Scenario.

(** ** Dictionaries *)

Section Dictionaries.

Context {V : Type}.

Lemma dict_get_None (d : dict V) (k : string) :
  ~ In k (dict_keys d) -> dict_get d k = None.
Proof.
  induction d as [|[k' v] rest IH]; simpl; intros Hnot.
  - reflexivity.
  - destruct (String.eqb_spec k' k) as [->|_].
    + exfalso. apply Hnot. now left.
    + apply IH. intros Hin. apply Hnot. now right.
Qed.

Lemma dict_get_Some_In (d : dict V) (k : string) (v : V) :
  dict_get d k = Some v -> In (k, v) (dict_items d).
Proof.
  induction d as [|[k' v'] rest IH]; simpl.
  - discriminate.
  - destruct (String.eqb_spec k' k) as [->|_].
    + intros [= ->]. now left.
    + intros H. right. now apply IH.
Qed.

(** Storing under a key that is absent appends the entry. *)
Lemma dict_set_fresh (d : dict V) (k : string) (v : V) :
  ~ In k (dict_keys d) -> dict_set d k v = d ++ [(k, v)].
Proof.
  induction d as [|[k' v'] rest IH]; simpl; intros Hnot.
  - reflexivity.
  - destruct (String.eqb_spec k' k) as [->|_].
    + exfalso. apply Hnot. now left.
    + f_equal. apply IH. intros Hin. apply Hnot. now right.
Qed.

Lemma dict_keys_app (d1 d2 : dict V) :
  dict_keys (d1 ++ d2) = dict_keys d1 ++ dict_keys d2.
Proof. unfold dict_keys. apply map_app. Qed.

(** Storing entries with distinct new keys one by one appends them all. *)
Lemma dict_set_all_fresh (entries acc : dict V) :
  NoDup (dict_keys entries) ->
  (forall k, In k (dict_keys entries) -> ~ In k (dict_keys acc)) ->
  fold_left (fun d kv => dict_set d (fst kv) (snd kv)) entries acc
  = acc ++ entries.
Proof.
  revert acc.
  induction entries as [|[k v] rest IH]; simpl; intros acc Hnd Hfresh.
  - now rewrite app_nil_r.
  - inversion Hnd as [|k0 l0 Hk Hrest]; subst.
    rewrite dict_set_fresh by (apply Hfresh; now left).
    rewrite IH.
    + now rewrite <- app_assoc.
    + exact Hrest.
    + intros k' Hin. rewrite dict_keys_app. simpl.
      intros Hin'. apply in_app_or in Hin'.
      destruct Hin' as [Hacc|[->|[]]].
      * revert Hacc. apply Hfresh. now right.
      * now apply Hk.
Qed.

End Dictionaries.

Lemma non_dummy_app (l1 l2 : list string) :
  non_dummy (l1 ++ l2) = non_dummy l1 ++ non_dummy l2.
Proof. unfold non_dummy. apply filter_app. Qed.

Lemma non_dummy_cons (l : list string) (name : string) :
  name <> "dummy" -> non_dummy (name :: l) = name :: non_dummy l.
Proof.
  intros Hname. unfold non_dummy; simpl.
  apply String.eqb_neq in Hname. now rewrite Hname.
Qed.

Lemma non_dummy_In (l : list string) (name : string) :
  In name (non_dummy l) <-> In name l /\ name <> "dummy".
Proof.
  unfold non_dummy. rewrite filter_In.
  destruct (String.eqb_spec name "dummy"); simpl; intuition congruence.
Qed.

Lemma probed_app (tr1 tr2 : list event) :
  probed (tr1 ++ tr2) = probed tr1 ++ probed tr2.
Proof. unfold probed. apply flat_map_app. Qed.

Lemma attempted_app (tr1 tr2 : list event) :
  attempted (tr1 ++ tr2) = attempted tr1 ++ attempted tr2.
Proof. unfold attempted. apply flat_map_app. Qed.

Lemma queried_app (tr1 tr2 : list event) :
  queried (tr1 ++ tr2) = queried tr1 ++ queried tr2.
Proof. unfold queried. apply flat_map_app. Qed.

Lemma assignments_app (tr1 tr2 : list event) :
  assignments (tr1 ++ tr2) = assignments tr1 ++ assignments tr2.
Proof. unfold assignments. apply flat_map_app. Qed.

(** ** Selecting a transport *)

Section Selector.

Context {Bus Transport : Type}.
Implicit Types (c : TransportClass Bus Transport) (w : World Bus).
Implicit Types (e : pyexc) (name : string).

(** One attempt on a backend that fails. *)
Lemma attempt_fails name c w e b' :
  backend_fails c (bus w) e b' ->
  exists w',
    probe_and_construct name c w = (Raise e, w') /\
    bus w' = b' /\ next_id w' = next_id w /\
    (trace w' = trace w ++ [EvProbe name] \/
     trace w' = trace w ++ [EvProbe name; EvConstruct name]).
Proof.
  unfold backend_fails, probe_and_construct, bind, call_probe, call_construct.
  intros [Hp | (b1 & Hp & Hc)]; rewrite Hp; simpl.
  - eexists; repeat split; auto.
  - rewrite Hc. eexists; repeat split; simpl; auto.
    right. now rewrite <- app_assoc.
Qed.

(** One attempt on a backend that works. *)
Lemma attempt_succeeds name c w t b' :
  backend_succeeds c (bus w) t b' ->
  exists w',
    probe_and_construct name c w = (Return t, w') /\
    bus w' = b' /\ next_id w' = next_id w /\
    trace w' = trace w ++ [EvProbe name; EvConstruct name].
Proof.
  unfold backend_succeeds, probe_and_construct, bind, call_probe, call_construct.
  intros (b1 & Hp & Hc). rewrite Hp; simpl. rewrite Hc.
  eexists; repeat split; simpl; auto. now rewrite <- app_assoc.
Qed.

(** The registry display of lines 53 to 56 holds its two entries in the
    order written. *)
Lemma transports_items (Dummy LibUSBHIDAPI : TransportClass Bus Transport) :
  dict_items (transports Dummy LibUSBHIDAPI)
  = [("dummy", Dummy); ("libusb", LibUSBHIDAPI)].
Proof. reflexivity. Qed.

Lemma transports_get (Dummy LibUSBHIDAPI : TransportClass Bus Transport) name :
  dict_get (transports Dummy LibUSBHIDAPI) name
  = if String.eqb "dummy" name then Some Dummy
    else if String.eqb "libusb" name then Some LibUSBHIDAPI
    else None.
Proof. reflexivity. Qed.

(** The names registered at lines 54 and 55 are not empty. *)
Lemma registered_name_nonempty (Dummy LibUSBHIDAPI : TransportClass Bus Transport)
    name c :
  dict_get (transports Dummy LibUSBHIDAPI) name = Some c -> truthy (Some name) = true.
Proof.
  rewrite transports_get.
  destruct (String.eqb_spec "dummy" name) as [<-|_]; [reflexivity|].
  destruct (String.eqb_spec "libusb" name) as [<-|_]; [reflexivity|].
  discriminate.
Qed.

Lemma truthy_nonempty name : name <> "" -> truthy (Some name) = true.
Proof.
  intros H. simpl. now destruct (String.eqb_spec name "").
Qed.

(** The named branch on a backend that fails. *)
Lemma named_backend_fails (registry : dict (TransportClass Bus Transport))
    name c w e b' :
  dict_get registry name = Some c ->
  backend_fails c (bus w) e b' ->
  isinstance_Exception e = true ->
  exists w',
    named_backend registry name w = (Raise (ProbeFailed name e), w') /\
    bus w' = b' /\ next_id w' = next_id w /\
    (trace w' = trace w ++ [EvProbe name] \/
     trace w' = trace w ++ [EvProbe name; EvConstruct name]).
Proof.
  intros Hget Hfail Hexc.
  destruct (attempt_fails name c w e b' Hfail) as (w' & Hrun & Hrest).
  exists w'. split; [|exact Hrest].
  unfold named_backend. rewrite Hget.
  unfold try_except_Exception. rewrite Hrun, Hexc. reflexivity.
Qed.

(** One step of the loop of lines 72 to 80 on an entry that is not the
    dummy. *)
Lemma for_transports_step name c rest acc w :
  name <> "dummy" ->
  for_transports ((name, c) :: rest) acc w
  = match probe_and_construct name c w with
    | (Return t, w') => (Return (inl t), w')
    | (Raise e, w') =>
        if isinstance_Exception e
        then for_transports rest (dict_set acc name e) w'
        else (Raise e, w')
    end.
Proof.
  intros Hname. cbn [for_transports].
  apply String.eqb_neq in Hname. rewrite Hname.
  unfold bind at 1. unfold try_except_Exception, bind, ret.
  destruct (probe_and_construct name c w) as [[t|e] w']; [reflexivity|].
  destruct (isinstance_Exception e); reflexivity.
Qed.

Lemma for_transports_dummy c rest acc w :
  for_transports (("dummy", c) :: rest) acc w = for_transports rest acc w.
Proof. reflexivity. Qed.

Lemma all_fail_keys (items : list (string * TransportClass Bus Transport))
    b errors b' :
  all_fail items b errors b' -> dict_keys errors = non_dummy (map fst items).
Proof.
  induction 1 as [| |name c rest b e b1 errors b' Hname _ _ _ IH].
  - reflexivity.
  - assumption.
  - cbn [map fst]. rewrite (non_dummy_cons _ _ Hname).
    simpl. f_equal. exact IH.
Qed.

(** Under distinct keys, the cause stored for a backend is the one it
    failed with. *)
Lemma all_fail_lookup (items : list (string * TransportClass Bus Transport))
    b errors b' :
  all_fail items b errors b' ->
  NoDup (map fst items) ->
  forall name c,
    In (name, c) items -> name <> "dummy" ->
    exists e b0 b1,
      dict_get errors name = Some e /\
      backend_fails c b0 e b1 /\
      isinstance_Exception e = true.
Proof.
  induction 1 as [b|c0 rest b errors b' _ IH
                 |name0 c0 rest b e b1 errors b' Hname0 Hfail Hexc _ IH];
    intros Hnd name c Hin Hname.
  - destruct Hin.
  - inversion Hnd as [|k l _ Hnd']; subst.
    destruct Hin as [[= <- _]|Hin]; [now elim Hname|].
    now apply (IH Hnd' name c).
  - inversion Hnd as [|k l Hnotin Hnd']; subst.
    destruct Hin as [[= <- <-]|Hin].
    + exists e, b, b1. cbn [dict_get]. rewrite String.eqb_refl. auto.
    + destruct (IH Hnd' name c Hin Hname) as (e' & b0 & b2 & Hget & Hrest).
      exists e', b0, b2. split; [|exact Hrest].
      cbn [dict_get].
      destruct (String.eqb_spec name0 name) as [->|_]; [|exact Hget].
      exfalso. apply Hnotin. now apply (in_map fst) in Hin.
Qed.

(** The loop runs through a prefix of failing entries, storing each cause,
    and goes on with what follows. *)
Lemma for_transports_all_fail (pre : list (string * TransportClass Bus Transport))
    b errors b1 :
  all_fail pre b errors b1 ->
  forall w acc rest, bus w = b ->
  exists w1 delta,
    for_transports (pre ++ rest) acc w
    = for_transports rest
        (fold_left (fun d kv => dict_set d (fst kv) (snd kv)) errors acc) w1 /\
    bus w1 = b1 /\ next_id w1 = next_id w /\
    trace w1 = trace w ++ delta /\
    probed delta = non_dummy (map fst pre) /\
    incl (attempted delta) (non_dummy (map fst pre)).
Proof.
  induction 1 as [b| c items b errors b' _ IH
                 | name c items b e b1 errors b' Hname Hfail Hexc _ IH];
    intros w acc rest Hbus.
  - exists w, []. rewrite app_nil_r. repeat split; auto. apply incl_refl.
  - destruct (IH w acc rest Hbus) as (w1 & delta & Hrun & Hrest).
    exists w1, delta. split; [exact Hrun | exact Hrest].
  - subst b.
    destruct (attempt_fails name c w e b1 Hfail) as (w0 & Hrun & Hb & Hn & Htr).
    destruct (IH w0 (dict_set acc name e) rest Hb)
      as (w1 & delta & Hloop & Hb1 & Hn1 & Htr1 & Hpr & Hat).
    cbn [map fst]. rewrite (non_dummy_cons _ _ Hname).
    destruct Htr as [Htr|Htr].
    + exists w1, (EvProbe name :: delta). repeat split.
      * cbn [app]. rewrite for_transports_step by exact Hname.
        rewrite Hrun, Hexc. exact Hloop.
      * exact Hb1.
      * congruence.
      * rewrite Htr1, Htr, <- app_assoc. reflexivity.
      * simpl. now f_equal.
      * simpl. intros x [<-|Hx]; [now left | right; now apply Hat].
    + exists w1, (EvProbe name :: EvConstruct name :: delta). repeat split.
      * cbn [app]. rewrite for_transports_step by exact Hname.
        rewrite Hrun, Hexc. exact Hloop.
      * exact Hb1.
      * congruence.
      * rewrite Htr1, Htr, <- app_assoc. reflexivity.
      * simpl. now f_equal.
      * simpl. intros x [<-|[<-|Hx]]; [now left | now left | right; now apply Hat].
Qed.

(** Whatever the loop raises was not caught at line 79: it is not an
    instance of [Exception]. *)
Lemma for_transports_raises (items : list (string * TransportClass Bus Transport)) :
  forall acc w e w',
    for_transports items acc w = (Raise e, w') ->
    isinstance_Exception e = false.
Proof.
  induction items as [|[name c] rest IH]; intros acc w e w'.
  - discriminate.
  - destruct (String.eqb_spec name "dummy") as [->|Hname].
    + rewrite for_transports_dummy. apply IH.
    + rewrite for_transports_step by exact Hname.
      destruct (probe_and_construct name c w) as [[t|e0] w0]; [discriminate|].
      destruct (isinstance_Exception e0) eqn:Hexc.
      * apply IH.
      * intros [= <- <-]. exact Hexc.
Qed.

(** What one attempt adds to the trace. *)
Lemma probe_and_construct_trace name c w :
  exists delta,
    trace (snd (probe_and_construct name c w)) = trace w ++ delta /\
    incl (attempted delta) [name] /\
    assignments delta = [].
Proof.
  unfold probe_and_construct, bind, call_probe, call_construct.
  destruct (probe c (bus w)) as [[u|e] b1]; simpl.
  - destruct (construct c b1) as [r b2]; simpl.
    exists [EvProbe name; EvConstruct name]. repeat split.
    + now rewrite <- app_assoc.
    + simpl. intros x [<-|[<-|[]]]; now left.
  - exists [EvProbe name]. repeat split.
    simpl. intros x [<-|[]]; now left.
Qed.

(** The loop calls into no backend but those registered under a name other
    than the dummy's. *)
Lemma for_transports_trace (items : list (string * TransportClass Bus Transport)) :
  forall acc w,
  exists delta,
    trace (snd (for_transports items acc w)) = trace w ++ delta /\
    incl (attempted delta) (non_dummy (map fst items)) /\
    assignments delta = [].
Proof.
  induction items as [|[name c] rest IH]; intros acc w.
  - exists []. simpl. rewrite app_nil_r.
    repeat split. apply incl_refl.
  - destruct (String.eqb_spec name "dummy") as [->|Hname].
    + rewrite for_transports_dummy. apply IH.
    + rewrite for_transports_step by exact Hname.
      cbn [map fst]. rewrite (non_dummy_cons _ _ Hname).
      destruct (probe_and_construct_trace name c w) as (d0 & Htr0 & Hat0 & Has0).
      destruct (probe_and_construct name c w) as [[t|e0] w0]; simpl in Htr0.
      * exists d0. repeat split; [exact Htr0| |exact Has0].
        intros x Hx. apply Hat0 in Hx. destruct Hx as [<-|[]]. now left.
      * destruct (isinstance_Exception e0).
        -- destruct (IH (dict_set acc name e0) w0) as (d1 & Htr1 & Hat1 & Has1).
           exists (d0 ++ d1). repeat split.
           ++ rewrite Htr1, Htr0, <- app_assoc. reflexivity.
           ++ rewrite attempted_app. intros x Hx. apply in_app_or in Hx.
              destruct Hx as [Hx|Hx].
              ** apply Hat0 in Hx. destruct Hx as [<-|[]]. now left.
              ** right. now apply Hat1.
           ++ rewrite assignments_app, Has0, Has1. reflexivity.
        -- exists d0. repeat split; [exact Htr0| |exact Has0].
           intros x Hx. apply Hat0 in Hx. destruct Hx as [<-|[]]. now left.
Qed.

Lemma autoprobe_trace (registry : dict (TransportClass Bus Transport)) w :
  exists delta,
    trace (snd (autoprobe registry w)) = trace w ++ delta /\
    incl (attempted delta) (non_dummy (dict_keys registry)) /\
    assignments delta = [].
Proof.
  destruct (for_transports_trace (dict_items registry) [] w) as (delta & Htr & Hat).
  exists delta. split; [|exact Hat].
  unfold autoprobe, bind.
  destruct (for_transports (dict_items registry) [] w) as [[[t|errs]|e] w'];
    exact Htr.
Qed.

Lemma autoprobe_raises (registry : dict (TransportClass Bus Transport)) w e w' :
  autoprobe registry w = (Raise e, w') ->
  (exists errors, e = NoFunctionalBackend errors) \/
  isinstance_Exception e = false.
Proof.
  unfold autoprobe, bind.
  destruct (for_transports (dict_items registry) [] w) as [[[t|errs]|e0] w0] eqn:Hloop.
  - discriminate.
  - intros [= <- <-]. left. now exists errs.
  - intros [= <- <-]. right. exact (for_transports_raises _ _ _ _ _ Hloop).
Qed.

(** C1, amended.  A backend of the registry of lines 53 to 56 is named, and
    it fails with an object [e] that derives from [Exception]: its probe
    raises [e], or its probe returns and its construction raises [e].  Then
    [_get_transport] raises a [ProbeError] whose arguments are the text of
    line 68 with the name between the quotes, and [e] itself.  The only calls
    made are the probe of that backend and, when the probe returned, its
    construction: no other backend is tried. *)
Theorem named_backend_failure_is_ProbeFailed
    (Dummy LibUSBHIDAPI : TransportClass Bus Transport) name c w e b' :
  dict_get (transports Dummy LibUSBHIDAPI) name = Some c ->
  backend_fails c (bus w) e b' ->
  isinstance_Exception e = true ->
  exists w',
    _get_transport Dummy LibUSBHIDAPI (Some name) w
    = (Raise (ProbeError
                [VStr ("Probe failed on HID backend "
                       ++ String "034" (name ++ String "034" "."))%string;
                 VExc e]), w') /\
    bus w' = b' /\ next_id w' = next_id w /\
    (trace w' = trace w ++ [EvProbe name] \/
     trace w' = trace w ++ [EvProbe name; EvConstruct name]).
Proof.
  intros Hget Hfail Hexc.
  unfold _get_transport, get_transport_in.
  rewrite (registered_name_nonempty _ _ _ _ Hget).
  destruct (named_backend_fails (transports Dummy LibUSBHIDAPI)
              name c w e b' Hget Hfail Hexc) as (w' & Hrun & Hrest).
  exists w'. split; [|exact Hrest].
  rewrite Hrun. reflexivity.
Qed.

(** C2, amended.  A string that is not empty and is not a key of the
    registry is passed as the name.  Then [_get_transport] raises the
    [ProbeError] of line 62 for that name, whatever the two backends would do:
    none of them is called and the world is left as it was. *)
Theorem unregistered_name_is_UnknownBackend
    (Dummy LibUSBHIDAPI : TransportClass Bus Transport) name w :
  name <> "" ->
  ~ In name (dict_keys (transports Dummy LibUSBHIDAPI)) ->
  _get_transport Dummy LibUSBHIDAPI (Some name) w
  = (Raise (UnknownBackend name), w).
Proof.
  intros Hne Hnot.
  unfold _get_transport, get_transport_in.
  rewrite (truthy_nonempty _ Hne).
  unfold named_backend. now rewrite (dict_get_None _ _ Hnot).
Qed.


(** C4, amended.  No name is given, the keys of the registry are distinct,
    and every entry that is not the dummy fails with an object that derives
    from [Exception]; [errors] lists the names with their causes.  Then
    [_get_transport] raises a [ProbeError] whose arguments are the text of
    line 82 and a dictionary.  That dictionary is [errors]: its keys are the
    non-dummy keys of the registry, each once and in registration order, and
    under the name of each such backend it holds an exception that this
    backend failed with. *)
Theorem autoprobe_all_fail_is_NoFunctionalBackend
    (registry : dict (TransportClass Bus Transport)) w errors b' :
  NoDup (dict_keys registry) ->
  all_fail (dict_items registry) (bus w) errors b' ->
  exists w' probe_errors,
    get_transport_in registry None w
    = (Raise (ProbeError
                [VStr "Probe failed to find any functional HID backend.";
                 VDict probe_errors]), w') /\
    bus w' = b' /\
    probe_errors = errors /\
    dict_keys probe_errors = non_dummy (dict_keys registry) /\
    NoDup (dict_keys probe_errors) /\
    (forall name c,
       In (name, c) (dict_items registry) -> name <> "dummy" ->
       exists e b0 b1,
         dict_get probe_errors name = Some e /\
         backend_fails c b0 e b1 /\
         isinstance_Exception e = true).
Proof.
  intros Hnd Hall.
  pose proof (all_fail_keys _ _ _ _ Hall) as Hkeys.
  assert (Hnd' : NoDup (dict_keys errors)).
  { rewrite Hkeys. apply NoDup_filter. exact Hnd. }
  destruct (for_transports_all_fail _ _ _ _ Hall w [] [] eq_refl)
    as (w1 & d1 & Hrun & Hb1 & _).
  exists w1, errors. split; [|repeat split; try assumption].
  - unfold get_transport_in, autoprobe, bind.
    rewrite <- (app_nil_r (dict_items registry)), Hrun.
    rewrite dict_set_all_fresh by (auto; intros k _ []).
    reflexivity.
  - exact (all_fail_lookup _ _ _ _ Hall Hnd).
Qed.

(** C10.  The empty string as the name: line 58 finds it false, so the call
    is the call without a name, which is the scan of lines 70 to 82.  What it
    raises is never the [ProbeError] of line 62, and the dummy backend is not
    called. *)
Theorem empty_name_means_autoprobe
    (Dummy LibUSBHIDAPI : TransportClass Bus Transport) w :
  _get_transport Dummy LibUSBHIDAPI (Some "") w
  = _get_transport Dummy LibUSBHIDAPI None w /\
  _get_transport Dummy LibUSBHIDAPI (Some "") w
  = autoprobe (transports Dummy LibUSBHIDAPI) w /\
  (forall name,
     fst (_get_transport Dummy LibUSBHIDAPI (Some "") w)
     <> Raise (UnknownBackend name)) /\
  exists delta,
    trace (snd (_get_transport Dummy LibUSBHIDAPI (Some "") w))
    = trace w ++ delta /\
    incl (attempted delta) ["libusb"].
Proof.
  repeat split.
  - intros name.
    change (_get_transport Dummy LibUSBHIDAPI (Some "") w)
      with (autoprobe (transports Dummy LibUSBHIDAPI) w).
    destruct (autoprobe (transports Dummy LibUSBHIDAPI) w) as [[t|e] w'] eqn:Hrun;
      simpl; [discriminate|].
    intros [= ->].
    destruct (autoprobe_raises _ _ _ _ Hrun) as [[errs Herr]|Hexc];
      discriminate.
  - destruct (autoprobe_trace (transports Dummy LibUSBHIDAPI) w)
      as (delta & Htr & Hat & _).
    exists delta. split; [exact Htr | exact Hat].
Qed.

(** Selecting a transport assigns no attribute. *)
Lemma get_transport_in_trace (registry : dict (TransportClass Bus Transport))
    (transport : option string) w :
  exists delta,
    trace (snd (get_transport_in registry transport w)) = trace w ++ delta /\
    assignments delta = [].
Proof.
  assert (Hauto : exists delta,
             trace (snd (autoprobe registry w)) = trace w ++ delta /\
             assignments delta = []).
  { destruct (autoprobe_trace registry w) as (delta & Htr & _ & Has).
    now exists delta. }
  unfold get_transport_in.
  destruct transport as [name|]; [|exact Hauto].
  destruct (truthy (Some name)); [|exact Hauto].
  unfold named_backend.
  destruct (dict_get registry name) as [c|].
  - destruct (probe_and_construct_trace name c w) as (delta & Htr & _ & Has).
    exists delta. split; [|exact Has].
    unfold try_except_Exception, raise.
    destruct (probe_and_construct name c w) as [[t|e] w']; [exact Htr|].
    destruct (isinstance_Exception e); exact Htr.
  - exists []. simpl. now rewrite app_nil_r.
Qed.

End Selector.

(** ** Constructing the manager and enumerating *)

Section Manager.

Context {Bus Transport Descriptor : Type}.
Variable transport_enumerate :
  Transport -> Z -> Z -> Bus -> outcome (list Descriptor) * Bus.
Implicit Types (w : World Bus) (self : DeviceManager Transport).
Implicit Types (t : Transport) (c : class_type).

(** The comprehension of line 111 makes one new object per descriptor, in
    order, and touches neither the bus nor the manager. *)
Lemma list_comprehension_spec c (found : list Descriptor) :
  forall w,
  exists wrapped w',
    list_comprehension c found w = (Return wrapped, w') /\
    map model wrapped = map (pair c) found /\
    map sd_id wrapped = seq (next_id w) (length found) /\
    bus w' = bus w /\
    next_id w' = next_id w + length found /\
    exists delta,
      trace w' = trace w ++ delta /\
      queried delta = [] /\ assignments delta = [].
Proof.
  induction found as [|d rest IH]; intros w.
  - exists [], w. simpl. repeat split; auto.
    exists []. now rewrite app_nil_r.
  - cbn [list_comprehension]. unfold bind at 1. unfold call_class.
    set (w0 := {| bus := bus w; next_id := S (next_id w);
                  trace := trace w ++ [EvNew c (next_id w)] |}).
    destruct (IH w0) as (xs & w' & Hrun & Hmodel & Hids & Hbus & Hnext & delta
                         & Htr & Hq & Ha).
    unfold bind. rewrite Hrun.
    eexists; exists w'. split; [reflexivity|].
    repeat split.
    + cbn [map]. now rewrite Hmodel.
    + cbn [map length seq]. now rewrite Hids.
    + exact Hbus.
    + rewrite Hnext. simpl. lia.
    + exists (EvNew c (next_id w) :: delta). repeat split.
      * rewrite Htr. unfold w0; simpl. now rewrite <- app_assoc.
      * exact Hq.
      * exact Ha.
Qed.

(** One round of the loop of lines 109 to 111. *)
Lemma for_products_step vid pid c rest acc self w t :
  transport self = Some t ->
  for_products transport_enumerate ((vid, pid, c) :: rest) acc (self, w)
  = match transport_enumerate t vid pid (bus w) with
    | (Return found, b1) =>
        match list_comprehension c found
                (with_bus b1 (log (EvEnumerate vid pid) w)) with
        | (Return wrapped, w') =>
            for_products transport_enumerate rest (acc ++ wrapped) (self, w')
        | (Raise e, w') => (Raise e, (self, w'))
        end
    | (Raise e, b1) => (Raise e, (self, with_bus b1 (log (EvEnumerate vid pid) w)))
    end.
Proof.
  intros Hself. cbn [for_products].
  unfold bind at 1. unfold getattr_transport. cbn [fst snd]. rewrite Hself.
  unfold bind at 1. unfold lift at 1, call_enumerate. cbn [fst snd].
  destruct (transport_enumerate t vid pid (bus w)) as [[found|e] b1];
    [|reflexivity].
  unfold bind at 1. unfold lift. cbn [fst snd].
  destruct (list_comprehension c found _) as [[wrapped|e] w']; reflexivity.
Qed.

(** The loop over a prefix of the table that the transport answers. *)
Lemma for_products_answers t items b founds b' :
  answers transport_enumerate t items b founds b' ->
  forall self w acc rest,
    transport self = Some t -> bus w = b ->
    exists wrapped w1 delta,
      for_products transport_enumerate (items ++ rest) acc (self, w)
      = for_products transport_enumerate rest (acc ++ wrapped) (self, w1) /\
      map model wrapped = models_in_table_order items founds /\
      map sd_id wrapped = seq (next_id w) (length wrapped) /\
      bus w1 = b' /\
      next_id w1 = next_id w + length wrapped /\
      trace w1 = trace w ++ delta /\
      queried delta = map signature items /\
      assignments delta = [].
Proof.
  induction 1 as [b|vid pid c items b found b1 founds b' Hfound _ IH];
    intros self w acc rest Hself Hbus.
  - exists [], w, []. rewrite !app_nil_r. simpl. repeat split; auto.
  - subst b.
    set (w0 := with_bus b1 (log (EvEnumerate vid pid) w)).
    destruct (list_comprehension_spec c found w0)
      as (xs & wa & Hrun & Hmodel & Hids & Hbusa & Hnexta & d1 & Htr1 & Hq1 & Ha1).
    destruct (IH self wa (acc ++ xs) rest Hself Hbusa)
      as (ys & w1 & d2 & Hloop & Hmodel2 & Hids2 & Hbus2 & Hnext2 & Htr2 & Hq2 & Ha2).
    assert (Hlen : length xs = length found).
    { rewrite <- (length_map model xs), Hmodel. apply length_map. }
    exists (xs ++ ys), w1, (EvEnumerate vid pid :: d1 ++ d2).
    repeat split.
    + cbn [app]. rewrite (for_products_step _ _ _ _ _ _ _ t Hself).
      rewrite Hfound. fold w0. rewrite Hrun, Hloop. now rewrite app_assoc.
    + rewrite map_app, Hmodel, Hmodel2. reflexivity.
    + rewrite map_app, length_app, seq_app, Hids, Hids2, Hnexta, Hlen.
      reflexivity.
    + exact Hbus2.
    + rewrite Hnext2, Hnexta, length_app, Hlen. simpl. lia.
    + rewrite Htr2, Htr1. unfold w0; simpl.
      rewrite <- !app_assoc. reflexivity.
    + cbn [queried flat_map app]. fold (queried (d1 ++ d2)).
      rewrite queried_app, Hq1, Hq2. reflexivity.
    + cbn [assignments flat_map app]. fold (assignments (d1 ++ d2)).
      rewrite assignments_app, Ha1, Ha2. reflexivity.
Qed.

(** The loop never assigns to the manager, however it ends. *)
Lemma for_products_frame (items : list (Z * Z * class_type)) :
  forall acc self w,
  exists r w' delta,
    for_products transport_enumerate items acc (self, w) = (r, (self, w')) /\
    trace w' = trace w ++ delta /\
    assignments delta = [].
Proof.
  induction items as [|[[vid pid] c] rest IH]; intros acc self w.
  - exists (Return acc), w, []. rewrite app_nil_r. repeat split.
  - destruct (transport self) as [t|] eqn:Hself.
    + rewrite (for_products_step _ _ _ _ _ _ _ t Hself).
      destruct (transport_enumerate t vid pid (bus w)) as [[found|e] b1].
      * set (w0 := with_bus b1 (log (EvEnumerate vid pid) w)).
        destruct (list_comprehension_spec c found w0)
          as (xs & wa & Hrun & _ & _ & _ & _ & d1 & Htr1 & _ & Ha1).
        rewrite Hrun.
        destruct (IH (acc ++ xs) self wa) as (r & w' & d2 & Hloop & Htr2 & Ha2).
        exists r, w', (EvEnumerate vid pid :: d1 ++ d2). repeat split.
        -- exact Hloop.
        -- rewrite Htr2, Htr1. unfold w0; simpl.
           rewrite <- !app_assoc. reflexivity.
        -- cbn [assignments flat_map app]. fold (assignments (d1 ++ d2)).
           rewrite assignments_app, Ha1, Ha2. reflexivity.
      * exists (Raise e), (with_bus b1 (log (EvEnumerate vid pid) w)),
               [EvEnumerate vid pid].
        repeat split.
    + exists (Raise AttributeError), w, []. rewrite app_nil_r. repeat split.
      cbn [for_products]. unfold bind at 1. unfold getattr_transport.
      cbn [fst snd]. now rewrite Hself.
Qed.

(** [enumerate] when the transport answers every query of the table. *)
Lemma enumerate_answers t self w founds b' :
  transport self = Some t ->
  answers transport_enumerate t products (bus w) founds b' ->
  exists streamdecks w' delta,
    enumerate transport_enumerate (self, w) = (Return streamdecks, (self, w')) /\
    map model streamdecks = models_in_table_order products founds /\
    map sd_id streamdecks = seq (next_id w) (length streamdecks) /\
    bus w' = b' /\
    next_id w' = next_id w + length streamdecks /\
    trace w' = trace w ++ delta /\
    queried delta = map signature products /\
    assignments delta = [].
Proof.
  intros Hself Hans.
  destruct (for_products_answers t _ _ _ _ Hans self w [] [] Hself eq_refl)
    as (xs & w1 & delta & Hrun & Hrest).
  exists xs, w1, delta. split; [|exact Hrest].
  unfold enumerate, bind. rewrite <- (app_nil_r products), Hrun. reflexivity.
Qed.

(** C5.  The manager holds transport [t], and [t] answers the queries for
    the four signatures, asked in table order, with the descriptor sequences
    [founds].  Then [enumerate] returns one device object per descriptor:
    those of the first signature first, in the order the transport gave
    them, then those of the second signature, and so on. *)
Theorem enumerate_groups_by_table_order t self w founds b' :
  transport self = Some t ->
  answers transport_enumerate t products (bus w) founds b' ->
  exists streamdecks w',
    enumerate transport_enumerate (self, w) = (Return streamdecks, (self, w')) /\
    map model streamdecks = models_in_table_order products founds /\
    bus w' = b'.
Proof.
  intros Hself Hans.
  destruct (enumerate_answers t self w founds b' Hself Hans)
    as (xs & w' & _ & Hrun & Hmodel & _ & Hbus & _).
  now exists xs, w'.
Qed.

(** C6.  The transport answers every query of the table with the empty
    sequence.  Then [enumerate] returns the empty list; it does not raise. *)
Theorem enumerate_nothing_attached t self w b' :
  transport self = Some t ->
  answers transport_enumerate t products (bus w)
          (map (fun _ => []) products) b' ->
  exists w',
    enumerate transport_enumerate (self, w) = (Return [], (self, w')) /\
    bus w' = b'.
Proof.
  intros Hself Hans.
  destruct (enumerate_answers t self w _ b' Hself Hans)
    as (xs & w' & _ & Hrun & Hmodel & _ & Hbus & _).
  exists w'. split; [|exact Hbus].
  simpl in Hmodel. apply map_eq_nil in Hmodel. now subst xs.
Qed.

(** C7.  The transport answers the queries for the signatures [pre] of the
    table and raises [e] on the query for the next signature.  Then
    [enumerate] raises [e] itself: no list is returned, the failing query is
    the last thing it does, and the signatures after it are not queried. *)
Theorem enumerate_fault_propagates t self w pre vid pid c post founds b1 e b2 :
  transport self = Some t ->
  products = pre ++ (vid, pid, c) :: post ->
  answers transport_enumerate t pre (bus w) founds b1 ->
  transport_enumerate t vid pid b1 = (Raise e, b2) ->
  exists w' delta,
    enumerate transport_enumerate (self, w) = (Raise e, (self, w')) /\
    bus w' = b2 /\
    trace w' = trace w ++ delta ++ [EvEnumerate vid pid] /\
    queried delta = map signature pre.
Proof.
  intros Hself Hsplit Hans Hraise.
  destruct (for_products_answers t _ _ _ _ Hans self w [] ((vid, pid, c) :: post)
              Hself eq_refl)
    as (xs & w1 & delta & Hrun & _ & _ & Hbus & _ & Htr & Hq & _).
  exists (with_bus b2 (log (EvEnumerate vid pid) w1)), delta.
  repeat split.
  - unfold enumerate, bind. rewrite Hsplit, Hrun.
    rewrite (for_products_step _ _ _ _ _ _ _ t Hself).
    rewrite Hbus, Hraise. reflexivity.
  - simpl. rewrite Htr, <- app_assoc. reflexivity.
  - exact Hq.
Qed.

(** C8.  [DeviceManager(name)] returned the manager [self].  Then its
    attribute [transport] is the instance [_get_transport] returned, and the
    construction assigned an attribute once, that one.  Every call of
    [enumerate] on it, in whatever state of the world and however it ends,
    leaves the manager as it was and assigns nothing. *)
Theorem transport_fixed_at_construction
    (Dummy LibUSBHIDAPI : TransportClass Bus Transport) name w self w' :
  new_DeviceManager Dummy LibUSBHIDAPI name w = (Return self, w') ->
  (exists t w1 delta,
     _get_transport Dummy LibUSBHIDAPI name w = (Return t, w1) /\
     transport self = Some t /\
     bus w' = bus w1 /\
     trace w' = trace w ++ delta /\
     assignments delta = ["transport"%string]) /\
  (forall w2,
   exists r w3 delta,
     enumerate transport_enumerate (self, w2) = (r, (self, w3)) /\
     trace w3 = trace w2 ++ delta /\
     assignments delta = []).
Proof.
  intros Hnew. split.
  - unfold new_DeviceManager, __init__, bind, lift, setattr_transport in Hnew.
    cbn [fst snd] in Hnew.
    destruct (get_transport_in_trace (transports Dummy LibUSBHIDAPI) name w)
      as (d0 & Htr0 & Ha0).
    fold (_get_transport Dummy LibUSBHIDAPI name w) in Htr0.
    destruct (_get_transport Dummy LibUSBHIDAPI name w) as [[t|e] w1];
      cbn [fst snd] in Hnew; [|discriminate].
    injection Hnew as <- <-.
    exists t, w1, (d0 ++ [EvSetattr "transport"]). repeat split.
    + simpl. simpl in Htr0. rewrite Htr0, <- app_assoc. reflexivity.
    + rewrite assignments_app, Ha0. reflexivity.
  - intros w2.
    destruct (for_products_frame products [] self w2)
      as (r & w3 & delta & Hrun & Htr & Ha).
    exists r, w3, delta. repeat split; [|exact Htr|exact Ha].
    unfold enumerate, bind. rewrite Hrun. now destruct r.
Qed.

(** C9.  [enumerate] is called twice on the same manager, and the transport
    answers the queries of both calls with the same descriptor sequences
    [founds].  Then both calls return, the second queries the transport again
    for every signature of the table, each of the two lists holds one object
    per descriptor of [founds], in table order, so that the two lists agree
    in class and descriptor position by position, and no object of the second
    list is an object of the first: all identities are distinct. *)
Theorem enumerate_twice_fresh_instances t self w founds b1 b2 :
  transport self = Some t ->
  answers transport_enumerate t products (bus w) founds b1 ->
  answers transport_enumerate t products b1 founds b2 ->
  exists first w1 second w2 delta,
    enumerate transport_enumerate (self, w) = (Return first, (self, w1)) /\
    enumerate transport_enumerate (self, w1) = (Return second, (self, w2)) /\
    map model first = models_in_table_order products founds /\
    map model second = models_in_table_order products founds /\
    map model first = map model second /\
    (forall x y, In x first -> In y second -> sd_id x <> sd_id y) /\
    NoDup (map sd_id (first ++ second)) /\
    trace w2 = trace w1 ++ delta /\
    queried delta = map signature products.
Proof.
  intros Hself Hans1 Hans2.
  destruct (enumerate_answers t self w founds b1 Hself Hans1)
    as (xs & w1 & _ & Hrun1 & Hmodel1 & Hids1 & Hbus1 & Hnext1 & _).
  rewrite <- Hbus1 in Hans2.
  destruct (enumerate_answers t self w1 founds b2 Hself Hans2)
    as (ys & w2 & delta & Hrun2 & Hmodel2 & Hids2 & _ & _ & Htr2 & Hq2 & _).
  assert (Hnd : NoDup (map sd_id (xs ++ ys))).
  { rewrite map_app, Hids1, Hids2, Hnext1, <- seq_app. apply seq_NoDup. }
  exists xs, w1, ys, w2, delta. repeat split; try assumption.
  - congruence.
  - intros x y Hx Hy Heq.
    rewrite map_app in Hnd.
    apply (in_map sd_id) in Hx. apply (in_map sd_id) in Hy.
    rewrite Heq in Hx.
    revert Hx Hy. generalize (sd_id y). clear -Hnd.
    induction (map sd_id xs) as [|a l IH]; simpl; intros n Hx Hy.
    + destruct Hx.
    + inversion Hnd as [|a0 l0 Hnotin Hnd']; subst.
      destruct Hx as [->|Hx].
      * apply Hnotin. apply in_or_app. now right.
      * now apply (IH Hnd' n).
Qed.

End Manager.

(** ** The theorems at the concrete collaborators *)

Import Demo.

(** The library behind [libusb] cannot be loaded and [libusb] is asked for
    by name. *)
Lemma named_backend_failure_witness :
  exists w',
    _get_transport (working "dummy") unloadable (Some "libusb") start
    = (Raise (ProbeError
                [VStr ("Probe failed on HID backend "
                       ++ String "034" ("libusb" ++ String "034" "."))%string;
                 VExc OSError]), w') /\
    bus w' = 1 /\ next_id w' = next_id start /\
    (trace w' = trace start ++ [EvProbe "libusb"] \/
     trace w' = trace start ++ [EvProbe "libusb"; EvConstruct "libusb"]).
Proof.
  apply (named_backend_failure_is_ProbeFailed
           (working "dummy") unloadable "libusb" unloadable start OSError 1).
  - reflexivity.
  - left. reflexivity.
  - reflexivity.
Defined.

(** The claim without the condition on what is raised: the probe of
    [libusb] is interrupted, and the interrupt reaches the caller as it is,
    not wrapped in a [ProbeError]. *)
Lemma interrupted_probe_is_not_ProbeFailed :
  ~ (forall (Dummy LibUSBHIDAPI : TransportClass Bus Transport)
            (name : string) (c : TransportClass Bus Transport)
            (w : World Bus) (e : pyexc) (b' : Bus),
       dict_get (transports Dummy LibUSBHIDAPI) name = Some c ->
       backend_fails c (bus w) e b' ->
       exists w',
         _get_transport Dummy LibUSBHIDAPI (Some name) w
         = (Raise (ProbeFailed name e), w')).
Proof.
  intros H.
  destruct (H (working "dummy") interrupted "libusb" interrupted start
              KeyboardInterrupt 1 eq_refl (or_introl eq_refl)) as (w' & Hrun).
  vm_compute in Hrun. discriminate.
Qed.

(** A name that is not registered. *)
Lemma unregistered_name_witness :
  _get_transport (working "dummy") (working "libusb") (Some "hidraw") start
  = (Raise (UnknownBackend "hidraw"), start).
Proof.
  apply (unregistered_name_is_UnknownBackend
           (working "dummy") (working "libusb") "hidraw" start).
  - discriminate.
  - simpl. intros [H|[H|[]]]; discriminate.
Defined.

(** The empty string is not a key of the registry, and asking for it selects
    the working [libusb] backend instead of raising. *)
Lemma empty_name_is_not_UnknownBackend :
  ~ (forall name : string,
       ~ In name (dict_keys (transports (working "dummy") (working "libusb"))) ->
       fst (_get_transport (working "dummy") (working "libusb") (Some name) start)
       = Raise (UnknownBackend name)).
Proof.
  intros H. specialize (H "").
  assert (Hnot : ~ In "" (dict_keys (transports (working "dummy") (working "libusb")))).
  { simpl. intros [E|[E|[]]]; discriminate. }
  specialize (H Hnot). vm_compute in H. discriminate.
Qed.



(** The claim without the condition on what is raised: on the registry of
    lines 53 to 56 the probe of [libusb], the one backend that is not the
    dummy, is interrupted; what is raised is the interrupt, not a
    [ProbeError] with a dictionary. *)
Lemma interrupted_scan_is_not_NoFunctionalBackend :
  ~ (forall (registry : dict (TransportClass Bus Transport))
            (w : World Bus) (errors : dict pyexc) (b' : Bus),
       NoDup (dict_keys registry) ->
       all_raise (dict_items registry) (bus w) errors b' ->
       exists w' probe_errors,
         get_transport_in registry None w
         = (Raise (NoFunctionalBackend probe_errors), w')).
Proof.
  intros H.
  assert (Hnd : NoDup (dict_keys (transports (working "dummy") interrupted))).
  { repeat constructor; simpl; intuition discriminate. }
  assert (Hall : all_raise
                   (dict_items (transports (working "dummy") interrupted))
                   (bus start) [("libusb", KeyboardInterrupt)] 1).
  { apply all_raise_dummy.
    apply all_raise_cons with (b1 := 1); [discriminate | left; reflexivity |].
    apply all_raise_nil. }
  destruct (H _ start _ 1 Hnd Hall) as (w' & probe_errors & Hrun).
  vm_compute in Hrun. discriminate.
Qed.

(** Nothing but the dummy works. *)
Lemma autoprobe_all_fail_witness :
  exists w' probe_errors,
    get_transport_in none_working None start
    = (Raise (ProbeError
                [VStr "Probe failed to find any functional HID backend.";
                 VDict probe_errors]), w') /\
    bus w' = 3 /\
    probe_errors = [("hidraw", OSError); ("winusb", PermissionError)] /\
    dict_keys probe_errors = non_dummy (dict_keys none_working) /\
    NoDup (dict_keys probe_errors) /\
    (forall name c,
       In (name, c) (dict_items none_working) -> name <> "dummy" ->
       exists e b0 b1,
         dict_get probe_errors name = Some e /\
         backend_fails c b0 e b1 /\
         isinstance_Exception e = true).
Proof.
  apply (autoprobe_all_fail_is_NoFunctionalBackend none_working start
           [("hidraw", OSError); ("winusb", PermissionError)] 3).
  - repeat constructor; simpl; intuition discriminate.
  - apply all_fail_dummy.
    apply all_fail_cons with (b1 := 1);
      [discriminate | left; reflexivity | reflexivity |].
    apply all_fail_cons with (b1 := 3);
      [discriminate | right; exists 2; split; reflexivity | reflexivity |].
    apply all_fail_nil.
Defined.

(** The empty name with a working [libusb]. *)
Lemma empty_name_witness :
  _get_transport (working "dummy") (working "libusb") (Some "") start
  = _get_transport (working "dummy") (working "libusb") None start /\
  _get_transport (working "dummy") (working "libusb") (Some "") start
  = autoprobe (transports (working "dummy") (working "libusb")) start /\
  (forall name,
     fst (_get_transport (working "dummy") (working "libusb") (Some "") start)
     <> Raise (UnknownBackend name)) /\
  exists delta,
    trace (snd (_get_transport (working "dummy") (working "libusb") (Some "") start))
    = trace start ++ delta /\
    incl (attempted delta) ["libusb"].
Proof.
  exact (empty_name_means_autoprobe (working "dummy") (working "libusb") start).
Defined.

(** One device of the first signature and two of the second. *)
Lemma enumerate_groups_witness :
  exists streamdecks w',
    enumerate attached (libusb_manager, start)
    = (Return streamdecks, (libusb_manager, w')) /\
    map model streamdecks
    = [ (StreamDeckOriginal, "usb:1");
        (StreamDeckOriginalV2, "usb:2");
        (StreamDeckOriginalV2, "usb:3") ] /\
    bus w' = 4.
Proof.
  apply (enumerate_groups_by_table_order attached "libusb" libusb_manager start
           [["usb:1"]; ["usb:2"; "usb:3"]; []; []] 4).
  - reflexivity.
  - apply answers_cons with (b1 := 1); [reflexivity|].
    apply answers_cons with (b1 := 2); [reflexivity|].
    apply answers_cons with (b1 := 3); [reflexivity|].
    apply answers_cons with (b1 := 4); [reflexivity|].
    apply answers_nil.
Defined.

(** No device attached. *)
Lemma enumerate_nothing_witness :
  exists w',
    enumerate unplugged (libusb_manager, start) = (Return [], (libusb_manager, w')) /\
    bus w' = 4.
Proof.
  apply (enumerate_nothing_attached unplugged "libusb" libusb_manager start 4).
  - reflexivity.
  - apply answers_cons with (b1 := 1); [reflexivity|].
    apply answers_cons with (b1 := 2); [reflexivity|].
    apply answers_cons with (b1 := 3); [reflexivity|].
    apply answers_cons with (b1 := 4); [reflexivity|].
    apply answers_nil.
Defined.

(** The bus is lost at the second signature, after the first was answered. *)
Lemma enumerate_fault_witness :
  exists w' delta,
    enumerate attached (flaky_manager, start) = (Raise IOError, (flaky_manager, w')) /\
    bus w' = 2 /\
    trace w' = trace start ++ delta
               ++ [EvEnumerate USB_VID_ELGATO USB_PID_STREAMDECK_ORIGINAL_V2] /\
    queried delta = [(USB_VID_ELGATO, USB_PID_STREAMDECK_ORIGINAL)].
Proof.
  apply (enumerate_fault_propagates attached "flaky" flaky_manager start
           [(USB_VID_ELGATO, USB_PID_STREAMDECK_ORIGINAL, StreamDeckOriginal)]
           USB_VID_ELGATO USB_PID_STREAMDECK_ORIGINAL_V2 StreamDeckOriginalV2
           [(USB_VID_ELGATO, USB_PID_STREAMDECK_MINI, StreamDeckMini);
            (USB_VID_ELGATO, USB_PID_STREAMDECK_XL, StreamDeckXL)]
           [["usb:1"]] 1 IOError 2).
  - reflexivity.
  - reflexivity.
  - apply answers_cons with (b1 := 1); [reflexivity|]. apply answers_nil.
  - reflexivity.
Defined.

(** A manager constructed without a name, [libusb] working. *)
Lemma transport_fixed_witness :
  (exists t w1 delta,
     _get_transport (working "dummy") (working "libusb") None start
     = (Return t, w1) /\
     transport libusb_manager = Some t /\
     bus constructed = bus w1 /\
     trace constructed = trace start ++ delta /\
     assignments delta = ["transport"%string]) /\
  (forall w2,
   exists r w3 delta,
     enumerate attached (libusb_manager, w2) = (r, (libusb_manager, w3)) /\
     trace w3 = trace w2 ++ delta /\
     assignments delta = []).
Proof.
  apply (transport_fixed_at_construction attached
           (working "dummy") (working "libusb") None start
           libusb_manager constructed).
  reflexivity.
Defined.

(** Two calls in a row, the same three devices attached. *)
Lemma enumerate_twice_witness :
  exists first w1 second w2 delta,
    enumerate attached (libusb_manager, start)
    = (Return first, (libusb_manager, w1)) /\
    enumerate attached (libusb_manager, w1)
    = (Return second, (libusb_manager, w2)) /\
    map model first
    = models_in_table_order products [["usb:1"]; ["usb:2"; "usb:3"]; []; []] /\
    map model second
    = models_in_table_order products [["usb:1"]; ["usb:2"; "usb:3"]; []; []] /\
    map model first = map model second /\
    (forall x y, In x first -> In y second -> sd_id x <> sd_id y) /\
    NoDup (map sd_id (first ++ second)) /\
    trace w2 = trace w1 ++ delta /\
    queried delta = map signature products.
Proof.
  apply (enumerate_twice_fresh_instances attached "libusb" libusb_manager start
           [["usb:1"]; ["usb:2"; "usb:3"]; []; []] 4 8).
  - reflexivity.
  - apply answers_cons with (b1 := 1); [reflexivity|].
    apply answers_cons with (b1 := 2); [reflexivity|].
    apply answers_cons with (b1 := 3); [reflexivity|].
    apply answers_cons with (b1 := 4); [reflexivity|].
    apply answers_nil.
  - apply answers_cons with (b1 := 5); [reflexivity|].
    apply answers_cons with (b1 := 6); [reflexivity|].
    apply answers_cons with (b1 := 7); [reflexivity|].
    apply answers_cons with (b1 := 8); [reflexivity|].
    apply answers_nil.
Defined.

(** The texts of lines 62 and 68. *)
Example unknown_backend_message_text :
  unknown_backend_message "hidraw"
  = ("Unknown HID transport backend " ++ dquote ++ "hidraw" ++ dquote ++ ".")%string.
Proof. reflexivity. Qed.

Example probe_failed_message_text :
  probe_failed_message "libusb"
  = ("Probe failed on HID backend " ++ dquote ++ "libusb" ++ dquote ++ ".")%string.
Proof. reflexivity. Qed.

(** An interrupt during the probe is not an [Exception]: line 67 does not
    catch it and it reaches the caller as it is. *)
Example interrupt_passes_through :
  _get_transport (working "dummy") interrupted (Some "libusb") start
  = (Raise KeyboardInterrupt,
     {| bus := 1; next_id := 0; trace := [EvProbe "libusb"] |}).
Proof. reflexivity. Qed.

(** ** More on selecting a transport *)

Section SelectorFurther.

Context {Bus Transport : Type}.
Implicit Types (c : TransportClass Bus Transport) (w : World Bus).
Implicit Types (e : pyexc) (name : string).

(** Reading back one attempt that returned. *)
Lemma attempt_returned name c w t w' :
  probe_and_construct name c w = (Return t, w') ->
  backend_succeeds c (bus w) t (bus w') /\
  trace w' = trace w ++ [EvProbe name; EvConstruct name].
Proof.
  unfold probe_and_construct, bind, call_probe, call_construct, backend_succeeds.
  destruct (probe c (bus w)) as [[[]|e] b1] eqn:Hp; simpl; [|discriminate].
  destruct (construct c b1) as [[t0|e] b2] eqn:Hc; simpl; [|discriminate].
  intros [= <- <-]. split.
  - exists b1. split; [reflexivity | exact Hc].
  - simpl. now rewrite <- app_assoc.
Qed.

(** Reading back one attempt that raised. *)
Lemma attempt_raised name c w e w' :
  probe_and_construct name c w = (Raise e, w') ->
  backend_fails c (bus w) e (bus w').
Proof.
  unfold probe_and_construct, bind, call_probe, call_construct, backend_fails.
  destruct (probe c (bus w)) as [[[]|e0] b1] eqn:Hp; simpl.
  - destruct (construct c b1) as [[t0|e0] b2] eqn:Hc; simpl; [discriminate|].
    intros [= <- <-]. right. exists b1. split; [reflexivity | exact Hc].
  - intros [= <- <-]. now left.
Qed.

Lemma dict_set_In {V : Type} (d : dict V) (k0 : string) (v0 : V) k v :
  In (k, v) (dict_set d k0 v0) -> In (k, v) d \/ (k = k0 /\ v = v0).
Proof.
  induction d as [|[k' v'] rest IH]; simpl.
  - intros [[= <- <-]|[]]. now right.
  - destruct (String.eqb_spec k' k0) as [->|_].
    + intros [[= <- <-]|Hin]; [now right | left; now right].
    + intros [Heq|Hin]; [left; now left|].
      destruct (IH Hin) as [H|H]; [left; now right | now right].
Qed.

(** X1.  A backend of the registry is named and its probe and construction
    both succeed: the instance is returned, and the calls made are that
    probe and that construction.  The dummy is selected this way. *)
Theorem named_backend_success_returns_instance
    (Dummy LibUSBHIDAPI : TransportClass Bus Transport) name c w t b' :
  dict_get (transports Dummy LibUSBHIDAPI) name = Some c ->
  backend_succeeds c (bus w) t b' ->
  exists w',
    _get_transport Dummy LibUSBHIDAPI (Some name) w = (Return t, w') /\
    bus w' = b' /\ next_id w' = next_id w /\
    trace w' = trace w ++ [EvProbe name; EvConstruct name].
Proof.
  intros Hget Hok.
  destruct (attempt_succeeds name c w t b' Hok) as (w' & Hrun & Hrest).
  exists w'. split; [|exact Hrest].
  unfold _get_transport, get_transport_in.
  rewrite (registered_name_nonempty _ _ _ _ Hget).
  unfold named_backend. rewrite Hget.
  unfold try_except_Exception. now rewrite Hrun.
Qed.

(** X2.  A backend of the registry is named and fails with something that
    does not derive from [Exception]: line 67 does not catch it, and
    [_get_transport] raises that object itself, not a [ProbeError]. *)
Theorem named_backend_interrupt_propagates
    (Dummy LibUSBHIDAPI : TransportClass Bus Transport) name c w e b' :
  dict_get (transports Dummy LibUSBHIDAPI) name = Some c ->
  backend_fails c (bus w) e b' ->
  isinstance_Exception e = false ->
  exists w',
    _get_transport Dummy LibUSBHIDAPI (Some name) w = (Raise e, w') /\
    bus w' = b' /\
    (trace w' = trace w ++ [EvProbe name] \/
     trace w' = trace w ++ [EvProbe name; EvConstruct name]).
Proof.
  intros Hget Hfail Hexc.
  destruct (attempt_fails name c w e b' Hfail) as (w' & Hrun & Hb & _ & Htr).
  exists w'. repeat split; try assumption.
  unfold _get_transport, get_transport_in.
  rewrite (registered_name_nonempty _ _ _ _ Hget).
  unfold named_backend. rewrite Hget.
  unfold try_except_Exception. now rewrite Hrun, Hexc.
Qed.

(** X3.  No name is given, and after candidates that fail with exceptions a
    candidate fails with something that does not derive from [Exception].
    Line 79 does not catch it: the scan ends there, the object is raised as
    it is, and the backends registered after it are not probed. *)
Theorem autoprobe_interrupt_stops_scan
    (pre post : list (string * TransportClass Bus Transport))
    name c w errors b1 e b2 :
  name <> "dummy" ->
  all_fail pre (bus w) errors b1 ->
  backend_fails c b1 e b2 ->
  isinstance_Exception e = false ->
  exists w' delta,
    get_transport_in (pre ++ (name, c) :: post) None w = (Raise e, w') /\
    bus w' = b2 /\
    trace w' = trace w ++ delta /\
    probed delta = non_dummy (map fst pre) ++ [name].
Proof.
  intros Hname Hpre Hfail Hexc.
  destruct (for_transports_all_fail pre _ _ _ Hpre w [] ((name, c) :: post) eq_refl)
    as (w1 & d1 & Hrun & Hb1 & _ & Htr1 & Hpr1 & _).
  rewrite <- Hb1 in Hfail.
  destruct (attempt_fails name c w1 e b2 Hfail) as (w2 & Hrun2 & Hb2 & _ & Htr2).
  assert (Hstep : get_transport_in (pre ++ (name, c) :: post) None w = (Raise e, w2)).
  { unfold get_transport_in, autoprobe, bind, dict_items.
    rewrite Hrun, for_transports_step by exact Hname.
    now rewrite Hrun2, Hexc. }
  destruct Htr2 as [Htr2|Htr2].
  - exists w2, (d1 ++ [EvProbe name]). repeat split; try assumption.
    + rewrite Htr2, Htr1, <- app_assoc. reflexivity.
    + rewrite probed_app, Hpr1. reflexivity.
  - exists w2, (d1 ++ [EvProbe name; EvConstruct name]).
    repeat split; try assumption.
    + rewrite Htr2, Htr1, <- app_assoc. reflexivity.
    + rewrite probed_app, Hpr1. reflexivity.
Qed.


(** When the loop leaves by the [return] of line 78. *)
Lemma for_transports_returned (items : list (string * TransportClass Bus Transport)) :
  forall acc w t w',
    for_transports items acc w = (Return (inl t), w') ->
    exists name c b0 delta,
      In (name, c) items /\ name <> "dummy" /\
      backend_succeeds c b0 t (bus w') /\
      trace w' = trace w ++ delta ++ [EvProbe name; EvConstruct name].
Proof.
  induction items as [|[name c] rest IH]; intros acc w t w'.
  - discriminate.
  - destruct (String.eqb_spec name "dummy") as [->|Hname].
    + rewrite for_transports_dummy. intros Hrun.
      destruct (IH _ _ _ _ Hrun) as (n & c' & b0 & delta & Hin & Hrest).
      exists n, c', b0, delta. split; [now right | exact Hrest].
    + rewrite for_transports_step by exact Hname.
      destruct (probe_and_construct_trace name c w) as (d0 & Htr0 & _).
      destruct (probe_and_construct name c w) as [[t0|e0] w0] eqn:Hrun0.
      * intros [= <- <-].
        destruct (attempt_returned _ _ _ _ _ Hrun0) as [Hok Htr].
        exists name, c, (bus w), []. repeat split; auto. now left.
      * destruct (isinstance_Exception e0); [|discriminate].
        intros Hrun. simpl in Htr0.
        destruct (IH _ _ _ _ Hrun) as (n & c' & b0 & delta & Hin & Hn & Hok & Htr).
        exists n, c', b0, (d0 ++ delta). repeat split; auto.
        -- now right.
        -- rewrite Htr, Htr0, <- !app_assoc. reflexivity.
Qed.

(** When the loop runs to its end: where the collected errors come from. *)
Lemma for_transports_errors (items : list (string * TransportClass Bus Transport)) :
  forall acc w errs w',
    for_transports items acc w = (Return (inr errs), w') ->
    forall name e,
      In (name, e) errs ->
      In (name, e) acc \/
      exists c b0 b1,
        In (name, c) items /\ name <> "dummy" /\
        backend_fails c b0 e b1 /\ isinstance_Exception e = true.
Proof.
  induction items as [|[name0 c] rest IH]; intros acc w errs w'.
  - intros [= <- <-] name e Hin. now left.
  - destruct (String.eqb_spec name0 "dummy") as [->|Hname].
    + rewrite for_transports_dummy. intros Hrun name e Hin.
      destruct (IH _ _ _ _ Hrun name e Hin) as [H|(c' & b0 & b1 & Hin' & Hrest)].
      * now left.
      * right. exists c', b0, b1. split; [now right | exact Hrest].
    + rewrite for_transports_step by exact Hname.
      destruct (probe_and_construct name0 c w) as [[t0|e0] w0] eqn:Hrun0;
        [discriminate|].
      destruct (isinstance_Exception e0) eqn:Hexc; [|discriminate].
      intros Hrun name e Hin.
      destruct (IH _ _ _ _ Hrun name e Hin) as [H|(c' & b0 & b1 & Hin' & Hrest)].
      * destruct (dict_set_In _ _ _ _ _ H) as [Hacc|[-> ->]]; [now left|].
        right. exists c, (bus w), (bus w0). repeat split; auto.
        -- now left.
        -- exact (attempt_raised _ _ _ _ _ Hrun0).
      * right. exists c', b0, b1. split; [now right | exact Hrest].
Qed.

(** X5.  Without a name (or with the empty one), an instance that is
    returned was constructed by a backend that is registered under a name
    other than the dummy's and whose probe succeeded just before; those two
    calls are the last ones made.  The dummy's instance is never returned. *)
Theorem autoprobe_returns_registered_backend
    (registry : dict (TransportClass Bus Transport)) transport w t w' :
  truthy transport = false ->
  get_transport_in registry transport w = (Return t, w') ->
  exists name c b0 delta,
    In (name, c) (dict_items registry) /\ name <> "dummy" /\
    backend_succeeds c b0 t (bus w') /\
    trace w' = trace w ++ delta ++ [EvProbe name; EvConstruct name].
Proof.
  intros Hfalse Hrun.
  assert (Hauto : autoprobe registry w = (Return t, w')).
  { unfold get_transport_in in Hrun. destruct transport as [n|]; [|exact Hrun].
    now rewrite Hfalse in Hrun. }
  unfold autoprobe, bind in Hauto.
  destruct (for_transports (dict_items registry) [] w) as [[[t0|errs]|e] w0] eqn:Hloop;
    try discriminate.
  injection Hauto as <- <-.
  exact (for_transports_returned _ _ _ _ _ Hloop).
Qed.

(** X6.  Without a name, when the [ProbeError] of line 82 is raised, every
    entry of its dictionary names a registered backend other than the dummy
    and holds an exception that this backend's probe or construction
    raised. *)
Theorem autoprobe_errors_come_from_backends
    (registry : dict (TransportClass Bus Transport)) transport w errors w' :
  truthy transport = false ->
  get_transport_in registry transport w = (Raise (NoFunctionalBackend errors), w') ->
  forall name e,
    In (name, e) errors ->
    exists c b0 b1,
      In (name, c) (dict_items registry) /\ name <> "dummy" /\
      backend_fails c b0 e b1 /\ isinstance_Exception e = true.
Proof.
  intros Hfalse Hrun.
  assert (Hauto : autoprobe registry w = (Raise (NoFunctionalBackend errors), w')).
  { unfold get_transport_in in Hrun. destruct transport as [n|]; [|exact Hrun].
    now rewrite Hfalse in Hrun. }
  unfold autoprobe, bind in Hauto.
  destruct (for_transports (dict_items registry) [] w) as [[[t0|errs]|e] w0] eqn:Hloop.
  - discriminate.
  - injection Hauto as <- <-.
    intros name e Hin.
    destruct (for_transports_errors _ _ _ _ _ Hloop name e Hin) as [[]|H].
    exact H.
  - injection Hauto as -> <-.
    pose proof (for_transports_raises _ _ _ _ _ Hloop) as Hexc. discriminate.
Qed.

(** X7.  On the registry of lines 53 to 56 the scan without a name makes
    the same calls as naming [libusb] and leaves the same world; it returns
    the same instance when there is one, and it raises the [ProbeError] of
    line 82 holding [e] under the key [libusb] exactly when naming [libusb]
    raises the [ProbeError] of line 68 holding [e].  What is bound to
    [Dummy] plays no part. *)
Theorem autoprobe_is_naming_libusb
    (Dummy LibUSBHIDAPI : TransportClass Bus Transport) w :
  snd (_get_transport Dummy LibUSBHIDAPI None w)
  = snd (_get_transport Dummy LibUSBHIDAPI (Some "libusb") w) /\
  (forall t,
     fst (_get_transport Dummy LibUSBHIDAPI None w) = Return t <->
     fst (_get_transport Dummy LibUSBHIDAPI (Some "libusb") w) = Return t) /\
  (forall e,
     fst (_get_transport Dummy LibUSBHIDAPI None w)
     = Raise (NoFunctionalBackend [("libusb", e)]) <->
     fst (_get_transport Dummy LibUSBHIDAPI (Some "libusb") w)
     = Raise (ProbeFailed "libusb" e)).
Proof.
  assert (Hauto : _get_transport Dummy LibUSBHIDAPI None w
                  = match probe_and_construct "libusb" LibUSBHIDAPI w with
                    | (Return t, w') => (Return t, w')
                    | (Raise e, w') =>
                        if isinstance_Exception e
                        then (Raise (NoFunctionalBackend [("libusb", e)]), w')
                        else (Raise e, w')
                    end).
  { unfold _get_transport, get_transport_in, autoprobe, bind.
    rewrite transports_items, for_transports_dummy.
    rewrite for_transports_step by discriminate.
    destruct (probe_and_construct "libusb" LibUSBHIDAPI w) as [[t|e] w'];
      [reflexivity|].
    destruct (isinstance_Exception e); reflexivity. }
  assert (Hnamed : _get_transport Dummy LibUSBHIDAPI (Some "libusb") w
                   = match probe_and_construct "libusb" LibUSBHIDAPI w with
                     | (Return t, w') => (Return t, w')
                     | (Raise e, w') =>
                         if isinstance_Exception e
                         then (Raise (ProbeFailed "libusb" e), w')
                         else (Raise e, w')
                     end).
  { reflexivity. }
  rewrite Hauto, Hnamed.
  destruct (probe_and_construct "libusb" LibUSBHIDAPI w) as [[t|e] w'].
  - repeat split; intros H; try exact H; discriminate.
  - destruct (isinstance_Exception e) eqn:Hexc; simpl.
    + repeat split; intros H; try discriminate.
      * injection H as <-. reflexivity.
      * injection H as <-. reflexivity.
    + repeat split; intros H; try discriminate.
      * injection H as ->. discriminate.
      * injection H as ->. discriminate.
Qed.

(** X8.  [DeviceManager(name)] raises exactly when [_get_transport] does,
    the same object in the same world, and then no attribute has been
    assigned.  If the object derives from [Exception] it is one of the three
    [ProbeError]s: that of line 62 for a name that is not empty and not
    registered, with nothing called; that of line 68 for a registered name,
    holding an exception; that of line 82 when no name or the empty one was
    given. *)
Theorem construction_failure_is_selection_failure
    (Dummy LibUSBHIDAPI : TransportClass Bus Transport) given w e w' :
  new_DeviceManager Dummy LibUSBHIDAPI given w = (Raise e, w') ->
  _get_transport Dummy LibUSBHIDAPI given w = (Raise e, w') /\
  (exists delta, trace w' = trace w ++ delta /\ assignments delta = []) /\
  (isinstance_Exception e = true ->
   (exists n, given = Some n /\ n <> "" /\
              dict_get (transports Dummy LibUSBHIDAPI) n = None /\
              e = UnknownBackend n /\ w' = w) \/
   (exists n c cause, given = Some n /\
              dict_get (transports Dummy LibUSBHIDAPI) n = Some c /\
              e = ProbeFailed n cause /\ isinstance_Exception cause = true) \/
   (exists errors, truthy given = false /\ e = NoFunctionalBackend errors)).
Proof.
  intros Hnew.
  assert (Hsel : _get_transport Dummy LibUSBHIDAPI given w = (Raise e, w')).
  { unfold new_DeviceManager, __init__, bind, lift, setattr_transport in Hnew.
    cbn [fst snd] in Hnew.
    destruct (_get_transport Dummy LibUSBHIDAPI given w) as [[t|e0] w1];
      cbn [fst snd] in Hnew; [discriminate|].
    now injection Hnew as <- <-. }
  split; [exact Hsel|]. split.
  - destruct (get_transport_in_trace (transports Dummy LibUSBHIDAPI) given w)
      as (delta & Htr & Ha).
    exists delta. split; [|exact Ha].
    fold (_get_transport Dummy LibUSBHIDAPI given w) in Htr.
    now rewrite Hsel in Htr.
  - intros Hexc. unfold _get_transport, get_transport_in in Hsel.
    assert (Hauto : autoprobe (transports Dummy LibUSBHIDAPI) w = (Raise e, w') ->
                    exists errors, e = NoFunctionalBackend errors).
    { intros Hrun. destruct (autoprobe_raises _ _ _ _ Hrun) as [H|H];
        [exact H | congruence]. }
    destruct given as [n|].
    + destruct (truthy (Some n)) eqn:Htruthy.
      * assert (Hne : n <> "").
        { intros ->. discriminate. }
        unfold named_backend in Hsel.
        destruct (dict_get (transports Dummy LibUSBHIDAPI) n) as [c|] eqn:Hget.
        -- right; left. unfold try_except_Exception in Hsel.
           destruct (probe_and_construct n c w) as [[t|e0] w0]; [discriminate|].
           destruct (isinstance_Exception e0) eqn:Hexc0.
           ++ injection Hsel as <- <-. now exists n, c, e0.
           ++ injection Hsel as <- <-. congruence.
        -- left. injection Hsel as <- <-. now exists n.
      * right; right. destruct (Hauto Hsel) as (errors & ->).
        now exists errors.
    + right; right. destruct (Hauto Hsel) as (errors & ->).
      now exists errors.
Qed.

End SelectorFurther.

(** ** More on enumerating *)

Section ManagerFurther.

Context {Bus Transport Descriptor : Type}.
Variable transport_enumerate :
  Transport -> Z -> Z -> Bus -> outcome (list Descriptor) * Bus.
Implicit Types (w : World Bus) (self : DeviceManager Transport).
Implicit Types (t : Transport) (c : class_type).

(** The loop queries the signatures of its table from the first on, each at
    most once, and all of them when it runs to its end. *)
Lemma for_products_queries (items : list (Z * Z * class_type)) :
  forall acc self w,
  exists delta k,
    trace (snd (snd (for_products transport_enumerate items acc (self, w))))
    = trace w ++ delta /\
    queried delta = firstn k (map signature items) /\
    (forall l,
       fst (for_products transport_enumerate items acc (self, w)) = Return l ->
       queried delta = map signature items).
Proof.
  induction items as [|[[vid pid] c] rest IH]; intros acc self w.
  - exists [], 0. simpl. rewrite app_nil_r. repeat split.
  - destruct (transport self) as [t|] eqn:Hself.
    + rewrite (for_products_step _ _ _ _ _ _ _ _ t Hself).
      destruct (transport_enumerate t vid pid (bus w)) as [[found|e] b1].
      * set (w0 := with_bus b1 (log (EvEnumerate vid pid) w)).
        destruct (list_comprehension_spec c found w0)
          as (xs & wa & Hrun & _ & _ & _ & _ & d1 & Htr1 & Hq1 & _).
        rewrite Hrun.
        destruct (IH (acc ++ xs) self wa) as (d2 & k & Htr2 & Hq2 & Hall).
        exists (EvEnumerate vid pid :: d1 ++ d2), (S k).
        assert (Hq : forall q, queried d2 = q ->
                     queried (EvEnumerate vid pid :: d1 ++ d2) = (vid, pid) :: q).
        { intros q <-. cbn [queried flat_map app]. fold (queried (d1 ++ d2)).
          now rewrite queried_app, Hq1. }
        repeat split.
        -- rewrite Htr2, Htr1. unfold w0; simpl.
           rewrite <- !app_assoc. reflexivity.
        -- now apply Hq.
        -- intros l Hl. apply Hq. now apply (Hall l).
      * exists [EvEnumerate vid pid], 1.
        split; [reflexivity|]. split; [reflexivity|].
        intros l Hl. simpl in Hl. discriminate.
    + exists [], 0.
      assert (Hrun : for_products transport_enumerate ((vid, pid, c) :: rest) acc
                       (self, w) = (Raise AttributeError, (self, w))).
      { cbn [for_products]. unfold bind at 1. unfold getattr_transport.
        cbn [fst snd]. now rewrite Hself. }
      rewrite Hrun. simpl. rewrite app_nil_r.
      split; [reflexivity|]. split; [reflexivity|].
      intros l Hl. discriminate.
Qed.

(** X9.  However a call of [enumerate] ends, the queries it made are the
    signatures of the table from the first on, in table order and each at
    most once; when it returns, it has queried all four. *)
Theorem enumerate_queries_table_prefix self w :
  exists delta k,
    trace (snd (snd (enumerate transport_enumerate (self, w)))) = trace w ++ delta /\
    queried delta = firstn k (map signature products) /\
    (forall streamdecks,
       fst (enumerate transport_enumerate (self, w)) = Return streamdecks ->
       queried delta = map signature products).
Proof.
  destruct (for_products_queries products [] self w) as (delta & k & Htr & Hq & Hall).
  exists delta, k.
  assert (Heq : enumerate transport_enumerate (self, w)
                = for_products transport_enumerate products [] (self, w)).
  { unfold enumerate, bind.
    destruct (for_products transport_enumerate products [] (self, w))
      as [[l|e] s']; reflexivity. }
  rewrite Heq. repeat split; assumption.
Qed.

Lemma models_descriptors t items b (founds : list (list Descriptor)) b' :
  answers transport_enumerate t items b founds b' ->
  map snd (models_in_table_order items founds) = concat founds.
Proof.
  induction 1 as [b|vid pid c items b found b1 founds b' _ _ IH].
  - reflexivity.
  - cbn [models_in_table_order concat]. rewrite map_app, IH, map_map.
    cbn [snd]. now rewrite map_id.
Qed.

(** X11.  When the transport answers every query, the descriptors of the
    returned objects are the descriptors reported, all of them and in the
    order reported: nothing is dropped or merged, a descriptor reported twice
    is wrapped twice, and the objects are pairwise distinct. *)
Theorem enumerate_wraps_every_descriptor t self w founds b' :
  transport self = Some t ->
  answers transport_enumerate t products (bus w) founds b' ->
  exists streamdecks s',
    enumerate transport_enumerate (self, w) = (Return streamdecks, s') /\
    map sd_device streamdecks = concat founds /\
    length streamdecks = length (concat founds) /\
    NoDup (map sd_id streamdecks) /\
    Forall (fun sd => next_id w <= sd_id sd) streamdecks.
Proof.
  intros Hself Hans.
  destruct (enumerate_answers transport_enumerate t self w founds b' Hself Hans)
    as (xs & w' & _ & Hrun & Hmodel & Hids & _).
  assert (Hdev : map sd_device xs = concat founds).
  { rewrite <- (models_descriptors _ _ _ _ _ Hans), <- Hmodel, map_map.
    reflexivity. }
  exists xs, (self, w'). repeat split.
  - exact Hrun.
  - exact Hdev.
  - rewrite <- Hdev. now rewrite length_map.
  - rewrite Hids. apply seq_NoDup.
  - apply Forall_forall. intros sd Hin.
    apply (in_map sd_id) in Hin. rewrite Hids in Hin.
    apply in_seq in Hin. lia.
Qed.

(** The signatures of the table of lines 100 to 105 determine the class. *)
Lemma products_class_unique vid pid c c' :
  In (vid, pid, c) products -> In (vid, pid, c') products -> c = c'.
Proof.
  unfold products, USB_VID_ELGATO, USB_PID_STREAMDECK_ORIGINAL,
    USB_PID_STREAMDECK_ORIGINAL_V2, USB_PID_STREAMDECK_MINI,
    USB_PID_STREAMDECK_XL.
  simpl. intuition congruence.
Qed.

Section Classification.

(** The vendor and product id of the device behind a descriptor. *)
Variable ids_of : Descriptor -> Z * Z.

Lemma models_classified (items : list (Z * Z * class_type)) founds :
  matching ids_of items founds ->
  forall c d,
    In (c, d) (models_in_table_order items founds) ->
    In (fst (ids_of d), snd (ids_of d), c) items.
Proof.
  induction 1 as [|[[vid pid] c0] found items founds Hfound _ IH];
    intros c d Hin.
  - destruct Hin.
  - cbn [models_in_table_order] in Hin. apply in_app_or in Hin.
    destruct Hin as [Hin|Hin].
    + apply in_map_iff in Hin. destruct Hin as (d0 & [= <- <-] & Hd).
      rewrite Forall_forall in Hfound. rewrite (Hfound _ Hd). now left.
    + right. now apply IH.
Qed.

(** X12.  When the transport answers every query and reports for each
    signature only devices of that signature, every returned object has the
    class that the table gives for the vendor and product id of its device,
    and no other entry of the table gives those ids another class. *)
Theorem enumerate_classifies_by_ids t self w founds b' :
  transport self = Some t ->
  answers transport_enumerate t products (bus w) founds b' ->
  matching ids_of products founds ->
  exists streamdecks s',
    enumerate transport_enumerate (self, w) = (Return streamdecks, s') /\
    forall sd,
      In sd streamdecks ->
      In (fst (ids_of (sd_device sd)), snd (ids_of (sd_device sd)), sd_class sd)
         products /\
      forall c,
        In (fst (ids_of (sd_device sd)), snd (ids_of (sd_device sd)), c) products ->
        c = sd_class sd.
Proof.
  intros Hself Hans Hmatch.
  destruct (enumerate_answers transport_enumerate t self w founds b' Hself Hans)
    as (xs & w' & _ & Hrun & Hmodel & _).
  exists xs, (self, w'). split; [exact Hrun|].
  intros sd Hin.
  assert (Hcls : In (fst (ids_of (sd_device sd)), snd (ids_of (sd_device sd)),
                     sd_class sd) products).
  { apply (models_classified products founds Hmatch).
    rewrite <- Hmodel. apply (in_map model) in Hin. exact Hin. }
  split; [exact Hcls|].
  intros c Hc. exact (products_class_unique _ _ _ _ Hc Hcls).
Qed.

End Classification.

End ManagerFurther.

(** ** The further theorems at the concrete collaborators *)

Import Scenario.

(** The dummy is asked for by name while [libusb] cannot be loaded. *)
Lemma named_backend_success_witness :
  exists w',
    _get_transport (working "dummy") unloadable (Some "dummy") start
    = (Return "dummy", w') /\
    bus w' = 2 /\ next_id w' = next_id start /\
    trace w' = trace start ++ [EvProbe "dummy"; EvConstruct "dummy"].
Proof.
  apply (named_backend_success_returns_instance
           (working "dummy") unloadable "dummy" (working "dummy") start "dummy" 2).
  - reflexivity.
  - exists 1. split; reflexivity.
Defined.

(** The probe of [libusb] is interrupted. *)
Lemma named_backend_interrupt_witness :
  exists w',
    _get_transport (working "dummy") interrupted (Some "libusb") start
    = (Raise KeyboardInterrupt, w') /\
    bus w' = 1 /\
    (trace w' = trace start ++ [EvProbe "libusb"] \/
     trace w' = trace start ++ [EvProbe "libusb"; EvConstruct "libusb"]).
Proof.
  apply (named_backend_interrupt_propagates
           (working "dummy") interrupted "libusb" interrupted start
           KeyboardInterrupt 1).
  - reflexivity.
  - left. reflexivity.
  - reflexivity.
Defined.

(** The scan is interrupted at its second candidate. *)
Lemma autoprobe_interrupt_witness :
  exists w' delta,
    get_transport_in interrupted_scan None start = (Raise KeyboardInterrupt, w') /\
    bus w' = 2 /\
    trace w' = trace start ++ delta /\
    probed delta = ["hidraw"; "winusb"].
Proof.
  apply (autoprobe_interrupt_stops_scan
           [("dummy", working "dummy"); ("hidraw", unloadable)]
           [("libusb", working "libusb")]
           "winusb" interrupted start [("hidraw", OSError)] 1
           KeyboardInterrupt 2).
  - discriminate.
  - apply all_fail_dummy.
    apply all_fail_cons with (b1 := 1);
      [discriminate | left; reflexivity | reflexivity |].
    apply all_fail_nil.
  - left. reflexivity.
  - reflexivity.
Defined.


(** The scan of [four_backends] returned the instance of [libusb]. *)
Lemma autoprobe_returns_witness :
  exists name c b0 delta,
    In (name, c) (dict_items four_backends) /\ name <> "dummy" /\
    backend_succeeds c b0 "libusb" (bus scan_done) /\
    trace scan_done = trace start ++ delta ++ [EvProbe name; EvConstruct name].
Proof.
  apply (autoprobe_returns_registered_backend four_backends None start
           "libusb" scan_done).
  - reflexivity.
  - reflexivity.
Defined.

(** The scan of [none_working] raised; the entry for [winusb]. *)
Lemma autoprobe_errors_witness :
  exists c b0 b1,
    In ("winusb", c) (dict_items none_working) /\ "winusb" <> "dummy" /\
    backend_fails c b0 PermissionError b1 /\
    isinstance_Exception PermissionError = true.
Proof.
  apply (autoprobe_errors_come_from_backends none_working None start
           [("hidraw", OSError); ("winusb", PermissionError)] scan_failed
           eq_refl eq_refl "winusb" PermissionError).
  right. left. reflexivity.
Defined.

(** [DeviceManager()] when [libusb] cannot be loaded. *)
Lemma construction_failure_witness :
  _get_transport (working "dummy") unloadable None start
  = (Raise (NoFunctionalBackend [("libusb", OSError)]), construction_failed) /\
  (exists delta,
     trace construction_failed = trace start ++ delta /\ assignments delta = []) /\
  (isinstance_Exception (NoFunctionalBackend [("libusb", OSError)]) = true ->
   (exists n, None = Some n /\ n <> "" /\
              dict_get (transports (working "dummy") unloadable) n = None /\
              NoFunctionalBackend [("libusb", OSError)] = UnknownBackend n /\
              construction_failed = start) \/
   (exists n c cause, None = Some n /\
              dict_get (transports (working "dummy") unloadable) n = Some c /\
              NoFunctionalBackend [("libusb", OSError)] = ProbeFailed n cause /\
              isinstance_Exception cause = true) \/
   (exists errors, truthy None = false /\
              NoFunctionalBackend [("libusb", OSError)]
              = NoFunctionalBackend errors)).
Proof.
  apply (construction_failure_is_selection_failure
           (working "dummy") unloadable None start
           (NoFunctionalBackend [("libusb", OSError)]) construction_failed).
  reflexivity.
Defined.

(** The same descriptor reported twice. *)
Lemma enumerate_wraps_witness :
  exists streamdecks s',
    enumerate doubled (libusb_manager, start) = (Return streamdecks, s') /\
    map sd_device streamdecks = ["usb:7"; "usb:7"] /\
    length streamdecks = 2 /\
    NoDup (map sd_id streamdecks) /\
    Forall (fun sd => next_id start <= sd_id sd) streamdecks.
Proof.
  apply (enumerate_wraps_every_descriptor doubled "libusb" libusb_manager start
           [[]; []; ["usb:7"; "usb:7"]; []] 4).
  - reflexivity.
  - apply answers_cons with (b1 := 1); [reflexivity|].
    apply answers_cons with (b1 := 2); [reflexivity|].
    apply answers_cons with (b1 := 3); [reflexivity|].
    apply answers_cons with (b1 := 4); [reflexivity|].
    apply answers_nil.
Defined.

(** One original deck and two of the second revision, each reported for
    its own signature. *)
Lemma enumerate_classifies_witness :
  exists streamdecks s',
    enumerate attached (libusb_manager, start) = (Return streamdecks, s') /\
    forall sd,
      In sd streamdecks ->
      In (fst (ids_of (sd_device sd)), snd (ids_of (sd_device sd)), sd_class sd)
         products /\
      forall c,
        In (fst (ids_of (sd_device sd)), snd (ids_of (sd_device sd)), c) products ->
        c = sd_class sd.
Proof.
  apply (enumerate_classifies_by_ids attached ids_of "libusb" libusb_manager start
           [["usb:1"]; ["usb:2"; "usb:3"]; []; []] 4).
  - reflexivity.
  - apply answers_cons with (b1 := 1); [reflexivity|].
    apply answers_cons with (b1 := 2); [reflexivity|].
    apply answers_cons with (b1 := 3); [reflexivity|].
    apply answers_cons with (b1 := 4); [reflexivity|].
    apply answers_nil.
  - unfold matching. repeat constructor.
Defined.
